(** * Verification of the templated-attention higher-order operator and of
      the CUTLASS autotuning test-suite

    The development embeds

    - [torch/_higher_order_ops/templated_attention.py]: the two
      higher-order operators, the eager implementation, the
      functionalization rules and the autograd function;
    - [test/inductor/test_cutlass_backend.py]: the test harness that
      observes the epilogue fusion counter and the list of autotuning
      choices;
    - the kernel selection engine (feasibility filter, selector, epilogue
      fusion analyzer) as its specification describes it.

    Python values are a small tagged union, exceptions are an error type,
    and effects (the dispatcher, context managers) are threaded through a
    trace of events. *)

From stdpp Require Import gmap strings list sorting pretty.
From Stdlib Require Import ZArith Lia.
From Stdlib Require QArith.

Set Warnings "-register-all".

Local Open Scope string_scope.
Local Open Scope Z_scope.
Local Open Scope list_scope.

(** ** Python values *)

Module Py.

(** [torch.dtype], restricted to the dtypes the sources mention. *)
Inductive DType :=
| float16 | bfloat16 | float32 | float64
| int8 | int32 | int64 | bool_.

Global Instance DType_eq_dec : EqDecision DType.
Proof. solve_decision. Defined.

(** Width of one element in bits. *)
Definition bits (d : DType) : Z :=
  match d with
  | float16 | bfloat16 => 16
  | float32 | int32 => 32
  | float64 | int64 => 64
  | int8 | bool_ => 8
  end.

(** A tensor as the operator sees it: its metadata, and an opaque handle on
    its storage. *)
Record Tensor := mkTensor {
  dtype : DType;
  shape : list Z;
  device : string;
  requires_grad : bool;
  is_contiguous : bool;
  storage : nat
}.

(** Callables.  A user function is opaque; [writes] lists the positions of
    the arguments its body writes in place.  [torch.vmap] and
    [ctx.functionalize] build new callables around an existing one. *)
Inductive Callable :=
| UserFn (name : string) (writes : list nat)
| Vmap (f : Callable) (in_dims : list (option Z)) (out_dims : list (option Z))
| Functionalized (f : Callable).

Inductive PyVal :=
| VNone
| VBool (b : bool)
| VInt (n : Z)
| VStr (s : string)
| VTensor (t : Tensor)
| VCallable (c : Callable)
| VTuple (items : list PyVal).

Inductive PyExn :=
| RuntimeError (msg : string)
| AssertionError (msg : string)
| AttributeError (msg : string)
| ValueError (msg : string)
| TypeError (msg : string)
| IndexError (msg : string)
| UnsupportedAliasMutationException (msg : string)
| SkipTest (msg : string).

(** [isinstance(v, torch.Tensor)] *)
Definition isinstance_Tensor (v : PyVal) : bool :=
  match v with VTensor _ => true | _ => false end.

(** [isinstance(v, tuple)] *)
Definition isinstance_tuple (v : PyVal) : bool :=
  match v with VTuple _ => true | _ => false end.

(** What a run leaves behind: entering the operator dispatcher, and entering
    and leaving a context manager. *)
Inductive Guard := RedispatchToNext | AutoDispatchBelowAutograd.

Inductive Event :=
| EvDispatch (op : string) (args : list PyVal)
| EvEnter (g : Guard)
| EvExit (g : Guard).

(** Computations that may raise and that thread a state of type [S]. *)
Definition St (S A : Type) : Type := S -> (PyExn + A) * S.

Definition ret {S A} (a : A) : St S A := fun st => (inr a, st).

Definition raise {S A} (e : PyExn) : St S A := fun st => (inl e, st).

Definition bind {S A B} (c : St S A) (k : A -> St S B) : St S B :=
  fun st =>
    match c st with
    | (inl e, st') => (inl e, st')
    | (inr a, st') => k a st'
    end.

Definition lift {S A} (r : PyExn + A) : St S A := fun st => (r, st).

Definition get {S} : St S S := fun st => (inr st, st).

Definition modify {S} (f : S -> S) : St S unit := fun st => (inr tt, f st).

(** [assert cond, msg] *)
Definition py_assert {S} (cond : bool) (msg : string) : St S unit :=
  if cond then ret tt else raise (AssertionError msg).

(** The operator code extends a trace of events. *)
Definition M : Type -> Type := St (list Event).

Definition emit (ev : Event) : M unit := modify (fun tr => tr ++ [ev]).

(** [with guard: body]: the manager is left on every path, also when the
    body raises. *)
Definition with_guard {A} (g : Guard) (body : M A) : M A :=
  fun tr =>
    let '(r, tr') := body (tr ++ [EvEnter g]) in
    (r, tr' ++ [EvExit g]).

End Py.

Export Py.

Notation "'do' x <- c ; k" := (bind c (fun x => k))
  (at level 10, x name, c at level 100, k at level 200).
Notation "'do' ' p <- c ; k" := (bind c (fun x => match x with p => k end))
  (at level 10, p pattern, c at level 100, k at level 200).
Notation "'run' c ; k" := (bind c (fun _ => k))
  (at level 10, c at level 100, k at level 200).

(** ** The collaborators the operator file imports *)

(** [torch._ops.HigherOrderOperator.__call__]: the dispatcher picks the
    implementation registered for the active dispatch key. *)
Class Dispatcher := {
  dispatch : string -> list PyVal -> M PyVal
}.

(** [torch._higher_order_ops.utils._has_potential_branch_input_mutation] *)
Class HopUtils := {
  _has_potential_branch_input_mutation :
    Callable -> list PyVal -> bool -> bool
}.

(** The tensor operations of [torch] that the eager implementation and the
    autograd function call.  Those that can raise return a sum. *)
Class TorchOps := {
  (** [a @ b] *)
  matmul : Tensor -> Tensor -> PyExn + Tensor;
  (** [t.transpose(dim0, dim1)] *)
  transpose : Tensor -> Z -> Z -> PyExn + Tensor;
  (** [t.to(dtype)] *)
  to_dtype : Tensor -> DType -> Tensor;
  (** [t.size(dim)] *)
  size : Tensor -> Z -> PyExn + Z;
  (** [torch.arange(start, stop, device=device)] *)
  arange : Z -> Z -> string -> Tensor;
  (** [torch.zeros(shape, dtype=dtype, requires_grad=requires_grad)] *)
  zeros : list Z -> DType -> bool -> Tensor;
  (** [t.logsumexp(dim)] *)
  logsumexp : Tensor -> Z -> PyExn + Tensor;
  (** [t.softmax(dim)] *)
  softmax : Tensor -> Z -> PyExn + Tensor;
  (** [t.contiguous()] *)
  contiguous : Tensor -> Tensor;
  (** iterating a tensor, as tuple unpacking does *)
  tensor_iter : Tensor -> PyExn + list PyVal;
  (** calling a callable on positional arguments *)
  call : Callable -> list PyVal -> M PyVal
}.

(** [torch.is_floating_point] on a dtype. *)
Definition is_floating_point (d : DType) : bool :=
  match d with
  | float16 | bfloat16 | float32 | float64 => true
  | _ => false
  end.

(** The dtype rules of these operations: [to] yields the requested dtype,
    [@] takes two operands of one dtype and yields that dtype, the
    reductions keep the dtype of a floating-point input, and [contiguous]
    keeps the dtype and yields a contiguous tensor. *)
Class TorchOpsLaws (T : TorchOps) := {
  dtype_to_dtype : forall t d, dtype (to_dtype t d) = d;
  dtype_matmul : forall a b c,
    matmul a b = inr c -> dtype b = dtype a /\ dtype c = dtype a;
  dtype_logsumexp : forall t dim r,
    is_floating_point (dtype t) = true ->
    logsumexp t dim = inr r -> dtype r = dtype t;
  dtype_softmax : forall t dim r,
    is_floating_point (dtype t) = true ->
    softmax t dim = inr r -> dtype r = dtype t;
  dtype_contiguous : forall t, dtype (contiguous t) = dtype t;
  contiguous_is_contiguous : forall t, is_contiguous (contiguous t) = true
}.

Section HigherOrderOperator.
Context {D : Dispatcher}.

(** [super().__call__] of a [HigherOrderOperator] named [name], on the
    positional arguments [args]. *)
Definition HigherOrderOperator_call (name : string) (args : list PyVal)
  : M PyVal :=
  run emit (EvDispatch name args);
  dispatch name args.

End HigherOrderOperator.

(** ** [class TemplatedAttentionHOP] *)

Module TemplatedAttentionHOP.
Section Methods.
Context {D : Dispatcher}.

(** [TemplatedAttentionHOP.__call__] *)
Definition __call__ (query key value score_mod : PyVal)
  (other_buffers : list PyVal) : M PyVal :=
  if negb (forallb isinstance_Tensor other_buffers)
  then raise (RuntimeError "Other buffers must be tensors.")
  else HigherOrderOperator_call "templated_attention"
         (query :: key :: value :: score_mod :: other_buffers).

End Methods.
End TemplatedAttentionHOP.

(** [templated_attention = TemplatedAttentionHOP()] *)
Definition templated_attention {D : Dispatcher} :=
  TemplatedAttentionHOP.__call__.

(** ** [class TemplatedAttentionBackwardHOP] *)

Module TemplatedAttentionBackwardHOP.
Section Methods.
Context {D : Dispatcher}.

(** [TemplatedAttentionBackwardHOP.__call__] *)
Definition __call__ (query key value out logsumexp grad_out : PyVal)
  (fw_graph joint_graph : PyVal) (other_buffers : list PyVal) : M PyVal :=
  if negb (forallb isinstance_Tensor other_buffers)
  then raise (RuntimeError "Other buffers must be tensors.")
  else HigherOrderOperator_call "templated_attention_backward"
         (query :: key :: value :: out :: logsumexp :: grad_out
            :: fw_graph :: joint_graph :: other_buffers).

End Methods.
End TemplatedAttentionBackwardHOP.

(** [templated_attention_backward = TemplatedAttentionBackwardHOP()] *)
Definition templated_attention_backward {D : Dispatcher} :=
  TemplatedAttentionBackwardHOP.__call__.

(** ** Small pieces of Python *)

Section Python.
Context {T : TorchOps}.

(** [v.dtype] *)
Definition getattr_dtype (v : PyVal) : M DType :=
  match v with
  | VTensor t => ret (dtype t)
  | _ => raise (AttributeError "dtype")
  end.

(** [v.requires_grad] *)
Definition getattr_requires_grad (v : PyVal) : PyExn + bool :=
  match v with
  | VTensor t => inr (requires_grad t)
  | _ => inl (AttributeError "requires_grad")
  end.

(** [any(buffer.requires_grad for buffer in bufs)]: the generator is
    consumed from the left and [any] stops at the first true item. *)
Fixpoint any_requires_grad (bufs : list PyVal) : PyExn + bool :=
  match bufs with
  | [] => inr false
  | buffer :: rest =>
      match getattr_requires_grad buffer with
      | inl e => inl e
      | inr true => inr true
      | inr false => any_requires_grad rest
      end
  end.

(** The items an unpacking assignment iterates over. *)
Definition py_iter (v : PyVal) : M (list PyVal) :=
  match v with
  | VTuple items => ret items
  | VTensor t => lift (tensor_iter t)
  | _ => raise (TypeError "cannot unpack non-iterable object")
  end.

(** [a, b = v] *)
Definition unpack2 (v : PyVal) : M (PyVal * PyVal) :=
  do items <- py_iter v;
  match items with
  | [a; b] => ret (a, b)
  | _ => raise (ValueError "wrong number of values to unpack (expected 2)")
  end.

(** [a, b, c = v] *)
Definition unpack3 (v : PyVal) : M (PyVal * PyVal * PyVal) :=
  do items <- py_iter v;
  match items with
  | [a; b; c] => ret (a, b, c)
  | _ => raise (ValueError "wrong number of values to unpack (expected 3)")
  end.

(** The receiver of a tensor method. *)
Definition as_tensor (v : PyVal) (method : string) : M Tensor :=
  match v with
  | VTensor t => ret t
  | _ => raise (AttributeError method)
  end.

End Python.

(** ** [math_attention] and [sdpa_dense] *)

Section Eager.
Context {T : TorchOps}.

(** [torch.float64 if query.dtype == torch.float64 else torch.float32] *)
Definition working_precision_of (query : Tensor) : DType :=
  if decide (dtype query = float64) then float64 else float32.

(** [score_mod] wrapped in [torch.vmap] four times, once for each of the
    key, query, head and batch dimensions; the buffers are not mapped
    over. *)
Definition vmap_score_mod (score_mod : Callable) (other_buffers : list PyVal)
  : Callable :=
  let in_dim_buffers := replicate (length other_buffers) (@None Z) in
  let score_mod :=
    Vmap score_mod ([Some 0; None; None; None; Some 0] ++ in_dim_buffers)
      [Some 0] in
  let score_mod :=
    Vmap score_mod ([Some 0; None; None; Some 0; None] ++ in_dim_buffers)
      [Some 0] in
  let score_mod :=
    Vmap score_mod ([Some 0; None; Some 0; None; None] ++ in_dim_buffers)
      [Some 0] in
  Vmap score_mod ([Some 0; Some 0; None; None; None] ++ in_dim_buffers)
    [Some 0].

(** The first part of [math_attention], up to the score matrix after
    [score_mod]: the value bound to [scores] before [logsumexp] and
    [softmax]. *)
Definition modified_scores (query key : Tensor) (score_mod : Callable)
  (other_buffers : list PyVal) : M Tensor :=
  let working_precision := working_precision_of query in
  do key_t <- lift (transpose key (-2) (-1));
  do qk <- lift (matmul query key_t);
  let scores := to_dtype qk working_precision in
  do size0 <- lift (size scores 0);
  let b := arange 0 size0 (device scores) in
  do size1 <- lift (size scores 1);
  let h := arange 0 size1 (device scores) in
  do size2 <- lift (size scores 2);
  let m := arange 0 size2 (device scores) in
  do size3 <- lift (size scores 3);
  let n := arange 0 size3 (device scores) in
  let score_mod := vmap_score_mod score_mod other_buffers in
  do modified <- call score_mod
    (VTensor scores :: VTensor b :: VTensor h :: VTensor m :: VTensor n
       :: other_buffers);
  do modified <- as_tensor modified "to";
  ret (to_dtype modified working_precision).

(** [math_attention]: the eager implementation. *)
Definition math_attention (query key value : Tensor) (score_mod : Callable)
  (other_buffers : list PyVal) : M (Tensor * Tensor) :=
  do scores <- modified_scores query key score_mod other_buffers;
  do logsumexp_ <- lift (logsumexp scores (-1));
  do scores <- lift (softmax scores (-1));
  do out <- lift (matmul (to_dtype scores (dtype query)) value);
  ret (out, logsumexp_).

(** [sdpa_dense]: the implementation registered for
    [DispatchKey.CompositeExplicitAutograd]. *)
Definition sdpa_dense (query key value : Tensor) (score_mod : Callable)
  (other_buffers : list PyVal) : M (Tensor * Tensor) :=
  do '(out, lse) <- math_attention query key value score_mod other_buffers;
  let out := contiguous out in
  ret (out, lse).

End Eager.

(** ** Functionalization rules *)

(** [torch._subclasses.functional_tensor.BaseFunctionalizeAPI]; [mode] is
    present on the implementations that carry a functional mode, with its
    [pre_dispatch] flag. *)
Record BaseFunctionalizeAPI := {
  unwrap_tensors : PyVal -> PyVal;
  wrap_tensors : PyVal -> PyVal;
  functionalize : Callable -> Callable;
  mode_pre_dispatch : option bool
}.

Section Functionalize.
Context {D : Dispatcher} {U : HopUtils} {T : TorchOps}.

(** [all(isinstance(item, torch.Tensor) for item in v)] for a tuple [v] *)
Definition all_tensors (v : PyVal) : bool :=
  match v with
  | VTuple items => forallb isinstance_Tensor items
  | _ => false
  end.

(** [list(v)] for a tuple [v] *)
Definition tuple_items (v : PyVal) : list PyVal :=
  match v with
  | VTuple items => items
  | _ => []
  end.

(** [templated_attention_functionalize]: the tensors are unwrapped, the
    score function is checked for mutations, and the operator is
    redispatched. *)
Definition templated_attention_functionalize (ctx : BaseFunctionalizeAPI)
  (query key value : PyVal) (score_mod : Callable)
  (other_buffers : list PyVal) : M PyVal :=
  let query_unwrapped := unwrap_tensors ctx query in
  let key_unwrapped := unwrap_tensors ctx key in
  let value_unwrapped := unwrap_tensors ctx value in
  let other_buffers_unwrapped := unwrap_tensors ctx (VTuple other_buffers) in
  run py_assert (isinstance_Tensor query_unwrapped) "";
  run py_assert (isinstance_Tensor key_unwrapped) "";
  run py_assert (isinstance_Tensor value_unwrapped) "";
  run py_assert (isinstance_tuple other_buffers_unwrapped) "";
  run py_assert (all_tensors other_buffers_unwrapped) "";
  do query_dtype <- getattr_dtype query;
  let example_vals :=
    [VTensor (zeros [] query_dtype false)]
      ++ replicate 4%nat (VTensor (zeros [] int32 false))
      ++ tuple_items other_buffers_unwrapped in
  do out <- with_guard RedispatchToNext (
    let functional_score_mod := functionalize ctx score_mod in
    let pre_dispatch :=
      match mode_pre_dispatch ctx with
      | Some flag => flag
      | None => false
      end in
    let mutates :=
      _has_potential_branch_input_mutation
        functional_score_mod example_vals pre_dispatch in
    if mutates
    then raise (UnsupportedAliasMutationException
                  "Mutations detected in score_mod")
    else templated_attention query_unwrapped key_unwrapped value_unwrapped
           (VCallable functional_score_mod)
           (tuple_items other_buffers_unwrapped));
  ret (wrap_tensors ctx out).

(** [templated_attention_backward_functionalize]: the tensors are
    unwrapped and the operator is redispatched. *)
Definition templated_attention_backward_functionalize
  (ctx : BaseFunctionalizeAPI)
  (query key value out logsumexp grad_out : PyVal)
  (fw_graph joint_graph : Callable) (other_buffers : list PyVal)
  : M PyVal :=
  let query_unwrapped := unwrap_tensors ctx query in
  let key_unwrapped := unwrap_tensors ctx key in
  let value_unwrapped := unwrap_tensors ctx value in
  let out_unwrapped := unwrap_tensors ctx out in
  let logsumexp_unwrapped := unwrap_tensors ctx logsumexp in
  let grad_out_unwrapped := unwrap_tensors ctx grad_out in
  let other_buffers_unwrapped := unwrap_tensors ctx (VTuple other_buffers) in
  run py_assert (isinstance_Tensor query_unwrapped) "";
  run py_assert (isinstance_Tensor key_unwrapped) "";
  run py_assert (isinstance_Tensor value_unwrapped) "";
  run py_assert (isinstance_Tensor out_unwrapped) "";
  run py_assert (isinstance_Tensor logsumexp_unwrapped) "";
  run py_assert (isinstance_Tensor grad_out_unwrapped) "";
  run py_assert (isinstance_tuple other_buffers_unwrapped) "";
  run py_assert (all_tensors other_buffers_unwrapped) "";
  do grads <- with_guard RedispatchToNext (
    let functional_fw_graph := functionalize ctx fw_graph in
    let functional_joint_graph := functionalize ctx joint_graph in
    do res <- templated_attention_backward
      query_unwrapped key_unwrapped value_unwrapped out_unwrapped
      logsumexp_unwrapped grad_out_unwrapped
      (VCallable functional_fw_graph) (VCallable functional_joint_graph)
      (tuple_items other_buffers_unwrapped);
    unpack3 res);
  let '(grad_query, grad_key, grad_value) := grads in
  ret (wrap_tensors ctx (VTuple [grad_query; grad_key; grad_value])).

End Functionalize.

(** ** [class TemplatedAttentionAutogradOp] *)

(** The [ctx] of a [torch.autograd.Function]: the two attributes the
    forward sets on it and the tensors given to [save_for_backward]. *)
Record FunctionCtx := {
  _fw_graph : PyVal;
  _joint_graph : PyVal;
  saved_tensors : list PyVal
}.

Module TemplatedAttentionAutogradOp.
Section Methods.
Context {D : Dispatcher} {T : TorchOps}.

(** [forward]; it returns the context as it leaves it, with the outputs. *)
Definition forward (ctx : FunctionCtx) (query key value : PyVal)
  (fw_graph joint_graph : PyVal) (other_buffers : list PyVal)
  : M (FunctionCtx * PyVal) :=
  do any_buffer_requires_grad <- lift (any_requires_grad other_buffers);
  run py_assert (negb any_buffer_requires_grad)
    "Captured buffers that require grad are not yet supported.";
  let ctx :=
    {| _fw_graph := fw_graph; _joint_graph := joint_graph;
       saved_tensors := saved_tensors ctx |} in
  do '(out, logsumexp) <- with_guard AutoDispatchBelowAutograd (
    do res <- templated_attention query key value fw_graph other_buffers;
    unpack2 res);
  let ctx :=
    {| _fw_graph := _fw_graph ctx; _joint_graph := _joint_graph ctx;
       saved_tensors :=
         query :: key :: value :: out :: logsumexp :: other_buffers |} in
  ret (ctx, VTuple [out; logsumexp]).

(** [backward] *)
Definition backward (ctx : FunctionCtx) (grad_out logsumexp_grad : PyVal)
  : M PyVal :=
  let fw_args := saved_tensors ctx in
  match fw_args with
  | query :: key :: value :: out :: logsumexp :: other_buffers =>
      let fw_graph := _fw_graph ctx in
      let joint_graph := _joint_graph ctx in
      let none_grads := replicate (2 + length other_buffers)%nat VNone in
      do res <- templated_attention_backward
        query key value out logsumexp grad_out fw_graph joint_graph
        other_buffers;
      do '(grad_query, grad_key, grad_value) <- unpack3 res;
      ret (VTuple ([grad_query; grad_key; grad_value] ++ none_grads))
  | _ =>
      raise (ValueError "not enough values to unpack (expected at least 5)")
  end.

End Methods.
End TemplatedAttentionAutogradOp.

(** ** The support code of the test-suite *)

Module TestSupport.
Import Stdlib.Strings.Ascii.

(** [s.split(sep)] for a separator of one character: the pieces between
    the separators, of which there is always at least one. *)
Fixpoint split (sep : Ascii.ascii) (s : string) : list string :=
  match s with
  | EmptyString => [EmptyString]
  | String c rest =>
      if Ascii.eqb c sep then EmptyString :: split sep rest
      else match split sep rest with
           | piece :: pieces => String c piece :: pieces
           | [] => [String c EmptyString]
           end
  end.

(** [sep.join(pieces)] *)
Fixpoint join (sep : string) (pieces : list string) : string :=
  match pieces with
  | [] => EmptyString
  | [piece] => piece
  | piece :: rest => piece +:+ sep +:+ join sep rest
  end.

(** [sub in s] on strings *)
Fixpoint contains (sub s : string) : bool :=
  String.prefix sub s
  || match s with
     | EmptyString => false
     | String _ rest => contains sub rest
     end.

(** The character [sep] does not occur in [s]. *)
Fixpoint free_of (sep : Ascii.ascii) (s : string) : bool :=
  match s with
  | EmptyString => true
  | String c rest => negb (Ascii.eqb c sep) && free_of sep rest
  end.

(** [s.rstrip(sep)] for a separator of one character *)
Fixpoint rstrip (sep : Ascii.ascii) (s : string) : string :=
  match s with
  | EmptyString => EmptyString
  | String c rest =>
      match rstrip sep rest with
      | EmptyString =>
          if Ascii.eqb c sep then EmptyString else String c EmptyString
      | stripped => String c stripped
      end
  end.

(** [s[:s.rfind(sep) + 1]]: [s] up to its last separator, included *)
Fixpoint upto_last (sep : Ascii.ascii) (s : string) : string :=
  match s with
  | EmptyString => EmptyString
  | String c rest =>
      if Ascii.eqb c sep || negb (free_of sep rest)
      then String c (upto_last sep rest)
      else EmptyString
  end.

(** [s.endswith(sep)] for a separator of one character *)
Fixpoint endswith (sep : Ascii.ascii) (s : string) : bool :=
  match s with
  | EmptyString => false
  | String c EmptyString => Ascii.eqb c sep
  | String _ rest => endswith sep rest
  end.

(** [os.path.dirname(p)], as [posixpath] defines it: the head of the
    path, without its trailing slashes unless it consists of slashes. *)
Definition os_path_dirname (p : string) : string :=
  let head := upto_last "/"%char p in
  if negb (String.eqb head "") && negb (String.eqb (rstrip "/"%char head) "")
  then rstrip "/"%char head
  else head.

(** [os.path.join(a, b)], as [posixpath] defines it. *)
Definition os_path_join (a b : string) : string :=
  if String.prefix "/" b then b
  else if String.eqb a "" || endswith "/"%char a then a +:+ b
  else a +:+ "/" +:+ b.

(** [os.environ.get(name, default)] *)
Definition environ_get (environ : gmap string string) (name default : string)
  : string :=
  match environ !! name with
  | Some value => value
  | None => default
  end.

Definition sccache_dir : string := "/opt/cache/bin".

(** [_get_path_without_sccache] *)
Definition _get_path_without_sccache (environ : gmap string string) : string :=
  let path_envs := split ":"%char (environ_get environ "PATH" "") in
  let path_envs :=
    filter (fun env => contains sccache_dir env = false) path_envs in
  join ":" path_envs.

(** The entries of [PATH] that do not contain the directory of the compiler
    cache. *)
Definition kept_entries (environ : gmap string string) : list string :=
  filter (fun env => contains sccache_dir env = false)
    (split ":"%char (environ_get environ "PATH" "")).

(** The process state [setUp] works on: [os.environ] and the seed of the
    random number generator. *)
Record Process := mkProcess {
  environ : gmap string string;
  seed : option Z
}.

Definition set_environ (name value : string) (p : Process) : Process :=
  mkProcess (<[name := value]> (environ p)) (seed p).

Definition set_seed (n : Z) (p : Process) : Process :=
  mkProcess (environ p) (Some n).

(** [try: body finally: cleanup], for a cleanup that does not raise. *)
Definition try_finally {R} (body : St Process R) (cleanup : Process -> Process)
  : St Process R :=
  fun p => let '(r, p') := body p in (r, cleanup p').

Definition fresh_cache_var : string := "INDUCTOR_TEST_DISABLE_FRESH_CACHE".

(** [TestCutlassBackend.setUp]; [super_setUp] is [setUp] of the parent
    class. *)
Definition setUp (super_setUp : St Process unit) : St Process unit :=
  do p <- get;
  let old_disable_fresh_cache_envvar :=
    environ_get (environ p) fresh_cache_var "" in
  run try_finally
    (run modify (set_environ fresh_cache_var "1");
     super_setUp)
    (set_environ fresh_cache_var old_disable_fresh_cache_envvar);
  modify (set_seed 1234).

End TestSupport.

(** ** [test/inductor/test_cutlass_backend.py] *)

Module CutlassTest.

Abbreviation Q := QArith_base.Q.

(** A decimal literal of the test file, [num / den]. *)
Definition decimal (num : Z) (den : positive) : Q := QArith_base.Qmake num den.

(** The functions under test, over their two arguments [a] and [b]. *)
Inductive Expr :=
| A
| B
| MatMul (x y : Expr)
| Bmm (x y : Expr)
| MulConst (x : Expr) (c : Q)
| SubConst (x : Expr) (c : Q)
| Relu (x : Expr)
| ClampMax (x : Expr) (c : Q)
| To (x : Expr) (d : DType)
| DivSize (x : Expr) (operand : Expr) (dim : Z).

(** The objects the threshold test looks at: choice callers, plain values,
    lists, and [unittest.mock.MagicMock] with the calls it recorded. *)
Inductive ChoiceCallerClass :=
| CUDATemplateCaller | TritonTemplateCaller | ExternKernelCaller.

Inductive Obj :=
| OChoiceCaller (cls : ChoiceCallerClass)
| OValue (v : PyVal)
| OList (items : list Obj)
| OMagicMock (calls : list (list Obj)).

(** [isinstance(o, ChoiceCaller)] *)
Definition isinstance_ChoiceCaller (o : Obj) : bool :=
  match o with OChoiceCaller _ => true | _ => false end.

(** [isinstance(o, CUDATemplateCaller)] *)
Definition isinstance_CUDATemplateCaller (o : Obj) : bool :=
  match o with OChoiceCaller CUDATemplateCaller => true | _ => false end.

(** [o[i]].  A [MagicMock] supports subscripting: the result is the return
    value of its [__getitem__], a child mock that recorded no call. *)
Definition getitem (o : Obj) (i : Z) : PyExn + Obj :=
  match o with
  | OMagicMock _ => inr (OMagicMock [])
  | OList items =>
      let n := Z.of_nat (length items) in
      let j := if i <? 0 then i + n else i in
      if (0 <=? j) && (j <? n)
      then match items !! Z.to_nat j with
           | Some x => inr x
           | None => inl (IndexError "list index out of range")
           end
      else inl (IndexError "list index out of range")
  | _ => inl (TypeError "object is not subscriptable")
  end.

(** [iter(o)].  The [__iter__] of a [MagicMock] returns [iter([])]. *)
Definition iter (o : Obj) : PyExn + list Obj :=
  match o with
  | OMagicMock _ => inr []
  | OList items => inr items
  | _ => inl (TypeError "object is not iterable")
  end.

(** The process state the tests read and write. *)
Record TestWorld := mkWorld {
  (** [torch._dynamo.utils.counters] *)
  counters : gmap string (gmap string Z);
  (** [torch.backends.cuda.matmul.allow_fp16_reduced_precision_reduction] *)
  allow_fp16_reduced_precision_reduction : bool;
  (** [torch._inductor.config] *)
  config : gmap string PyVal;
  (** the names replaced by [mock.patch], with the calls each mock saw *)
  patched : gmap string (list (list Obj));
  (** [os.environ] *)
  os_environ : gmap string string
}.

Definition set_counters (f : gmap string (gmap string Z) -> gmap string (gmap string Z))
  (w : TestWorld) : TestWorld :=
  mkWorld (f (counters w)) (allow_fp16_reduced_precision_reduction w)
    (config w) (patched w) (os_environ w).

Definition set_allow_fp16 (flag : bool) (w : TestWorld) : TestWorld :=
  mkWorld (counters w) flag (config w) (patched w) (os_environ w).

Definition set_config (c : gmap string PyVal) (w : TestWorld) : TestWorld :=
  mkWorld (counters w) (allow_fp16_reduced_precision_reduction w) c (patched w)
    (os_environ w).

Definition set_patched (p : gmap string (list (list Obj))) (w : TestWorld)
  : TestWorld :=
  mkWorld (counters w) (allow_fp16_reduced_precision_reduction w) (config w) p
    (os_environ w).

Definition set_os_environ (e : gmap string string) (w : TestWorld)
  : TestWorld :=
  mkWorld (counters w) (allow_fp16_reduced_precision_reduction w) (config w)
    (patched w) e.

(** [counters[group][name]]; a missing entry of a [Counter] reads 0. *)
Definition counter_get (c : gmap string (gmap string Z)) (group name : string)
  : Z :=
  default 0 (c !! group ≫= fun g => g !! name).

(** [counters[group][name] = v] *)
Definition counter_set (group name : string) (v : Z)
  (c : gmap string (gmap string Z)) : gmap string (gmap string Z) :=
  <[group := <[name := v]> (default ∅ (c !! group))]> c.

(** [with config.patch(changes): body]; the previous configuration is put
    back on every path. *)
Definition config_patch {R} (changes : gmap string PyVal)
  (body : St TestWorld R) : St TestWorld R :=
  fun w =>
    let saved := config w in
    let '(r, w') := body (set_config (changes ∪ saved) w) in
    (r, set_config saved w').

(** [with mock.patch(target) as m: body]; [body] receives the way to read
    the mock as it is at that moment. *)
Definition mock_patch {R} (target : string)
  (body : St TestWorld Obj -> St TestWorld R) : St TestWorld R :=
  fun w =>
    let saved := patched w in
    let read_mock : St TestWorld Obj :=
      fun w => (inr (OMagicMock (default [] (patched w !! target))), w) in
    let '(r, w') := body read_mock (set_patched (<[target := []]> saved) w) in
    (r, set_patched saved w').

(** [torch.randn] of a shape; [draw] numbers the draws after the seed is set. *)
Definition randn (shape : list Z) (draw : nat) : Tensor :=
  mkTensor float32 shape "cpu" false true draw.

(** [t.cuda()] *)
Definition cuda (t : Tensor) : Tensor :=
  mkTensor (dtype t) (shape t) "cuda" (requires_grad t) (is_contiguous t)
    (storage t).

(** [t.half()] *)
Definition half (t : Tensor) : Tensor :=
  mkTensor float16 (shape t) (device t) (requires_grad t) (is_contiguous t)
    (storage t).

(** What the tests use and do not define: [torch.compile], running the
    function eagerly and [torch.testing.assert_close]; and what is fixed
    when the test module is imported: whether [torch.version.hip] is set,
    the flags of [torch.testing._internal.common_cuda], the answer of
    [config.is_fbcode()], the path of the test file and [os.environ] at
    that moment. *)
Class Inductor := {
  version_hip : bool;
  common_cuda_SM75OrLater : bool;
  common_cuda_SM90OrLater : bool;
  is_fbcode : bool;
  __file__ : string;
  import_environ : gmap string string;
  torch_compile_run : Expr -> bool -> Tensor -> Tensor -> St TestWorld Tensor;
  eager_run : Expr -> Tensor -> Tensor -> PyExn + Tensor;
  assert_close : Tensor -> Tensor -> option Q -> option Q -> bool
}.

(** [@unittest.skipIf(condition, reason)]: when the condition holds, the
    test is replaced by a function that raises [SkipTest]. *)
Definition skipIf {R} (condition : bool) (reason : string)
  (test : St TestWorld R) : St TestWorld R :=
  if condition then raise (SkipTest reason) else test.

(** [@unittest.mock.patch.dict(os.environ, values)]: the test runs with
    the values written into [os.environ], which is put back as it was on
    every path. *)
Definition patch_dict_environ {R} (values : gmap string string)
  (test : St TestWorld R) : St TestWorld R :=
  fun w =>
    let original := os_environ w in
    let '(r, w') := test (set_os_environ (values ∪ original) w) in
    (r, set_os_environ original w').

Definition fusion_counter : string := "cuda_epilogue_fusion_counter".

Section Module.
Context {I : Inductor}.

(** [_CUTLASS_DIR] *)
Definition _CUTLASS_DIR : string :=
  TestSupport.os_path_join (TestSupport.os_path_dirname __file__)
    "../../third_party/cutlass/".

(** [SM75OrLater = SM75OrLater and not torch.version.hip], and the same
    for [SM90OrLater]. *)
Definition SM75OrLater : bool := common_cuda_SM75OrLater && negb version_hip.
Definition SM90OrLater : bool := common_cuda_SM90OrLater && negb version_hip.

(** The inputs of the epilogue fusion tests: [a] and [b], batched when a
    batch size is given, in half precision when [fp16] is set. *)
Definition fusion_inputs (fp16 : bool) (batch_size : option Z)
  : Tensor * Tensor :=
  let a :=
    match batch_size with
    | None => cuda (randn [256; 32] 0)
    | Some n => cuda (randn [n; 256; 32] 0)
    end in
  let b :=
    match batch_size with
    | None => cuda (randn [32; 256] 1)
    | Some n => cuda (randn [n; 32; 256] 1)
    end in
  let a := if fp16 then half a else a in
  let b := if fp16 then half b else b in
  (a, b).

(** The configuration the epilogue fusion tests patch in. *)
Definition fusion_config (max_autotune_gemm_backends : string)
  : gmap string PyVal :=
  list_to_map
    [("max_autotune", VBool true);
     ("autotune_in_subproc", VBool false);
     ("max_autotune_gemm_backends", VStr max_autotune_gemm_backends);
     ("cuda.cutlass_dir", VStr _CUTLASS_DIR);
     ("cuda.cutlass_max_profiling_configs", VInt 4);
     ("cuda.cutlass_only_evt_capable_ops", VBool true);
     ("cuda.version", VStr "12.2")].

(** The message of the assertion on the fusion count. *)
Definition fuse_count_message (expected_fuse_count actual_count : Z) : string :=
  "Expected fuse count of " +:+ pretty expected_fuse_count
    +:+ " but got " +:+ pretty actual_count.

(** The state in which the epilogue fusion harness calls the compiler: the
    precision flag is set, the configuration patched and the counter
    reset. *)
Definition at_compile_time (mixed_precision : bool)
  (max_autotune_gemm_backends : string) (w : TestWorld) : TestWorld :=
  set_counters (counter_set "inductor" fusion_counter 0)
    (set_config (fusion_config max_autotune_gemm_backends ∪ config w)
       (set_allow_fp16 mixed_precision w)).

(** [torch.testing.assert_close(actual, expected, atol=atol, rtol=rtol)] *)
Definition testing_assert_close (actual expected : Tensor)
  (atol rtol : option Q) : St TestWorld unit :=
  py_assert (assert_close actual expected atol rtol)
    "Tensor-likes are not close!".

(** [test_max_autotune_cutlass_threshold], under its three decorators. *)
Definition test_max_autotune_cutlass_threshold : St TestWorld unit :=
  skipIf (negb SM75OrLater) "need sm_75" (
  skipIf is_fbcode "fbcode requires different CUTLASS path setup" (
  patch_dict_environ
    {[ "PATH" := TestSupport._get_path_without_sccache import_environ ]} (
  if version_hip then ret tt else
  run modify (set_allow_fp16 false);
  let mm := MatMul A B in
  let a := half (cuda (randn [100; 10] 0)) in
  let b := half (cuda (randn [10; 100] 1)) in
  config_patch
    (list_to_map
       [("max_autotune", VBool true);
        ("autotune_in_subproc", VBool true);
        ("max_autotune_gemm_backends", VStr "CUTLASS,ATen");
        ("compile_threads", VInt 4);
        ("cuda.cutlass_backend_min_gemm_size", VInt 100000);
        ("cuda.cutlass_dir", VStr _CUTLASS_DIR);
        ("cuda.cutlass_max_profiling_configs", VInt 2)])
    (do '(Y_compiled, Y) <-
       mock_patch "torch._inductor.select_algorithm.autotune_select_algorithm"
         (fun read_mock =>
            do Y_compiled <- torch_compile_run mm false a b;
            do Y <- lift (eager_run mm a b);
            do mocked_select_algorithm <- read_mock;
            do first <- lift (getitem mocked_select_algorithm 0);
            do passed_choice_callers <- lift (getitem first 1);
            do items <- lift (iter passed_choice_callers);
            run py_assert (forallb isinstance_ChoiceCaller items)
              "Argument 1 to autotune_select_algorithm should be a list of ChoiceCaller instances";
            do items <- lift (iter passed_choice_callers);
            run py_assert
              (forallb (fun cc => negb (isinstance_CUDATemplateCaller cc)) items)
              "Cutlass Kernels should have been filtered, GEMM size is too small";
            ret (Y_compiled, Y));
     testing_assert_close Y_compiled Y None None)))).

(** [_test_max_autotune_cutlass_backend_epilogue_fusion]: the harness of
    the epilogue fusion tests. *)
Definition _test_max_autotune_cutlass_backend_epilogue_fusion
  (dynamic : bool) (max_autotune_gemm_backends : string)
  (mixed_precision fp16 : bool) (expected_fuse_count : Z) (mm : Expr)
  (batch_size : option Z) : St TestWorld unit :=
  run modify (set_allow_fp16 mixed_precision);
  let '(a, b) := fusion_inputs fp16 batch_size in
  config_patch (fusion_config max_autotune_gemm_backends)
    (run modify (set_counters (counter_set "inductor" fusion_counter 0));
     do Y_compiled <- torch_compile_run mm dynamic a b;
     do Y <- lift (eager_run mm a b);
     do w <- get;
     let actual_count := counter_get (counters w) "inductor" fusion_counter in
     run py_assert (actual_count =? expected_fuse_count)
       (fuse_count_message expected_fuse_count actual_count);
     testing_assert_close Y_compiled Y
       (Some (decimal 1 100)) (Some (decimal 1 100))).

(** The three decorators of every epilogue fusion test. *)
Definition fusion_test_decorators (test : St TestWorld unit)
  : St TestWorld unit :=
  skipIf (negb SM90OrLater) "need sm_90" (
  skipIf version_hip "HIP not supported" (
  skipIf is_fbcode "fbcode requires different CUTLASS path setup" test)).

(** The epilogue fusion tests; each gives its function [mm] and the fuse
    count it expects to the harness. *)
Definition test_max_autotune_cutlass_backend_simple_fusion_fp16
  : St TestWorld unit :=
  fusion_test_decorators (
    let mm := MulConst (MatMul A B) (decimal 3 1) in
    _test_max_autotune_cutlass_backend_epilogue_fusion
      false "CUTLASS" false true 0 mm None).

Definition test_max_autotune_cutlass_backend_simple_fusion_fp16_fp32acc
  : St TestWorld unit :=
  fusion_test_decorators (
    let mm := MulConst (MatMul A B) (decimal 3 1) in
    _test_max_autotune_cutlass_backend_epilogue_fusion
      false "CUTLASS" true true 0 mm None).

Definition test_max_autotune_cutlass_backend_chained_fusion_fp16
  : St TestWorld unit :=
  fusion_test_decorators (
    let mm := SubConst (MulConst (MatMul A B) (decimal 33 10)) (decimal 1234 1000) in
    _test_max_autotune_cutlass_backend_epilogue_fusion
      false "CUTLASS" false true 0 mm None).

Definition test_max_autotune_cutlass_backend_chained_fusion_fp16_fp32acc
  : St TestWorld unit :=
  fusion_test_decorators (
    let mm := SubConst (MulConst (MatMul A B) (decimal 33 10)) (decimal 1234 1000) in
    _test_max_autotune_cutlass_backend_epilogue_fusion
      false "CUTLASS" true true 0 mm None).

Definition test_max_autotune_cutlass_backend_no_fusion_dtype_mismatch
  : St TestWorld unit :=
  fusion_test_decorators (
    let mm := MulConst (To (MatMul A B) float32) (decimal 1 100000) in
    _test_max_autotune_cutlass_backend_epilogue_fusion
      false "CUTLASS" true true 0 mm None).

Definition test_max_autotune_cutlass_backend_shape_dependent_normalization_fusion
  : St TestWorld unit :=
  fusion_test_decorators (
    let mm := DivSize (MatMul A B) B 1 in
    _test_max_autotune_cutlass_backend_epilogue_fusion
      false "CUTLASS" true true 0 mm None).

End Module.
End CutlassTest.

(** ** The kernel selection engine

    The engine itself (the lowering that filters the choices, the
    autotuner, the CUDA scheduling that fuses epilogues) is not among the
    sources; only its test-suite is.  It is modelled here from its
    specification. *)

Module Engine.

(** Modelled from the spec: the closed set of backend kinds, missing from
    the sources. *)
Inductive BackendKind := TemplatedCodegen | PrebuiltLibrary | Reference.

Global Instance BackendKind_eq_dec : EqDecision BackendKind.
Proof. solve_decision. Defined.

(** Modelled from the spec: the two layouts of an operand. *)
Inductive Layout := RowMajor | ColumnMajor.

Global Instance Layout_eq_dec : EqDecision Layout.
Proof. solve_decision. Defined.

(** Modelled from the spec: one operand of an operation, with the stride of
    its leading dimension in elements and its layout. *)
Record Operand := {
  leading_stride : Z;
  layout : Layout;
  operand_dtype : DType
}.

(** Modelled from the spec: the OperationSpec of a matrix multiplication
    of an m-by-k and a k-by-n operand. *)
Record OperationSpec := {
  dim_m : Z;
  dim_n : Z;
  dim_k : Z;
  operands : list Operand;
  output_dtype : DType;
  reduced_precision_accumulation : bool
}.

(** Modelled from the spec: the CandidateDescriptor, a backend tag with its
    build parameters and what it supports.  [strict_reduced_precision] is
    [Some true] for a descriptor that requires reduced-precision
    accumulation, [Some false] for one that requires it off. *)
Record CandidateDescriptor := {
  backend : BackendKind;
  required_alignment : Z;
  supported_layouts : list (list Layout);
  accumulator : DType;
  cast_hook : bool;
  needs_output_eq_accumulation : bool;
  strict_reduced_precision : option bool;
  tile_efficiency : Z
}.

(** Modelled from the spec: the recognized configuration options the
    filter and the selector read. *)
Record Config := {
  requested_backends : list BackendKind;
  min_problem_size : Z;
  max_profiling_configs : nat
}.

(** Modelled from the spec: the volume of an operation, m x n x k for a
    matmul. *)
Definition volume (op : OperationSpec) : Z := dim_m op * dim_n op * dim_k op.

(** Modelled from the spec: the alignment rule of the Feasibility Filter;
    the leading stride of every operand is divisible by the alignment the
    descriptor requires. *)
Definition aligned (c : CandidateDescriptor) (op : OperationSpec) : bool :=
  forallb (fun o => leading_stride o mod required_alignment c =? 0)
    (operands op).

(** Modelled from the spec: the volume must meet or exceed the threshold;
    below it, templated-codegen candidates are dropped. *)
Definition large_enough (cfg : Config) (c : CandidateDescriptor)
  (op : OperationSpec) : bool :=
  match backend c with
  | TemplatedCodegen => min_problem_size cfg <=? volume op
  | _ => true
  end.

(** Modelled from the spec: the layout rule; the descriptor declares the
    combination of layouts of the operands. *)
Definition layout_supported (c : CandidateDescriptor) (op : OperationSpec)
  : bool :=
  bool_decide (layout <$> operands op ∈ supported_layouts c).

(** Modelled from the spec: the output dtype rule, for the descriptors
    that need the output dtype to be the accumulation dtype. *)
Definition output_dtype_ok (c : CandidateDescriptor) (op : OperationSpec)
  : bool :=
  if needs_output_eq_accumulation c
  then bool_decide (output_dtype op = accumulator c)
  else true.

(** Modelled from the spec: the mixed-precision rule; a strict descriptor
    and the operation agree on reduced-precision accumulation. *)
Definition precision_ok (c : CandidateDescriptor) (op : OperationSpec)
  : bool :=
  match strict_reduced_precision c with
  | Some strict => Bool.eqb strict (reduced_precision_accumulation op)
  | None => true
  end.

(** Modelled from the spec: [is_feasible]; all rules must hold. *)
Definition is_feasible (cfg : Config) (c : CandidateDescriptor)
  (op : OperationSpec) : bool :=
  aligned c op && large_enough cfg c op && layout_supported c op
    && output_dtype_ok c op && precision_ok c op.

(** Modelled from the spec: the BuiltKernel, bound to one descriptor and
    one operation. *)
Record BuiltKernel := {
  descriptor : CandidateDescriptor;
  bound_op : OperationSpec;
  handle : nat
}.

(** Modelled from the spec: the classified failures of a benchmark. *)
Inductive FailureKind := CRASH | TIMEOUT | SKIPPED.

(** Modelled from the spec: the status of a BenchmarkResult, a measured
    latency or a failure. *)
Inductive BenchStatus :=
| Success (latency : Z)
| Failure (kind : FailureKind).

(** Modelled from the spec: the BenchmarkResult. *)
Record BenchmarkResult := {
  candidate : CandidateDescriptor;
  status : BenchStatus
}.

(** Modelled from the spec: the terminal error of the selector. *)
Inductive TerminalError := NoViableKernel.

(** Modelled from the spec: the selection result, the winning kernel with
    its benchmark result. *)
Record Selection := {
  winner : BuiltKernel;
  winner_result : BenchmarkResult
}.

(** Modelled from the spec: the collaborators the engine consumes: the
    template catalogue of each backend, the code generator and compiler
    ([None] is a BuildError), the measurement of a built kernel, and the
    kernel of a fallback backend. *)
Class Collaborators := {
  catalogue : BackendKind -> OperationSpec -> list CandidateDescriptor;
  compile_kernel : CandidateDescriptor -> OperationSpec -> option nat;
  measure : BuiltKernel -> BenchStatus;
  fallback_descriptor : BackendKind -> OperationSpec -> CandidateDescriptor;
  fallback_handle : BackendKind -> OperationSpec -> nat
}.

Section Selector.
Context {C : Collaborators}.

(** Modelled from the spec: [enumerate_candidates] of one backend. *)
Definition enumerate_candidates (b : BackendKind) (op : OperationSpec)
  : list CandidateDescriptor :=
  filter (fun c => backend c = b) (catalogue b op).

(** Modelled from the spec: the candidates of all requested backends. *)
Definition all_candidates (cfg : Config) (op : OperationSpec)
  : list CandidateDescriptor :=
  requested_backends cfg ≫= (fun b => enumerate_candidates b op).

(** Modelled from the spec: the candidates that pass the filter; the
    others never reach the builder. *)
Definition feasible_candidates (cfg : Config) (op : OperationSpec)
  : list CandidateDescriptor :=
  filter (fun c => is_feasible cfg c op = true) (all_candidates cfg op).

(** Modelled from the spec: [build]; a failed build excludes the candidate
    and leaves its siblings alone. *)
Definition build (c : CandidateDescriptor) (op : OperationSpec)
  : option BuiltKernel :=
  (fun h => {| descriptor := c; bound_op := op; handle := h |})
    <$> compile_kernel c op.

(** Modelled from the spec: the kernels of the successful builds. *)
Definition built_kernels (cfg : Config) (op : OperationSpec)
  : list BuiltKernel :=
  omap (fun c => build c op) (feasible_candidates cfg op).

(** Modelled from the spec: the cheap heuristic that ranks the candidates
    before the cap on their number applies, the declared tile
    efficiency. *)
Definition more_efficient (k1 k2 : BuiltKernel) : Prop :=
  tile_efficiency (descriptor k2) <= tile_efficiency (descriptor k1).

Global Instance more_efficient_dec k1 k2 : Decision (more_efficient k1 k2).
Proof. unfold more_efficient. apply _. Defined.

(** Modelled from the spec: the kernels that are benchmarked, the first
    [max_profiling_configs] in the order of tile efficiency. *)
Definition to_benchmark (cfg : Config) (op : OperationSpec)
  : list BuiltKernel :=
  take (max_profiling_configs cfg)
    (merge_sort more_efficient (built_kernels cfg op)).

(** Modelled from the spec: the list of CandidateDescriptor passed to
    benchmarking, which the injection point shows to a test. *)
Definition benchmark_list (cfg : Config) (op : OperationSpec)
  : list CandidateDescriptor :=
  descriptor <$> to_benchmark cfg op.

(** Modelled from the spec: [benchmark]. *)
Definition benchmark (k : BuiltKernel) : BenchmarkResult :=
  {| candidate := descriptor k; status := measure k |}.

(** Modelled from the spec: the declared priority order of the backends,
    the reference backend last. *)
Definition priority (b : BackendKind) : Z :=
  match b with
  | TemplatedCodegen => 0
  | PrebuiltLibrary => 1
  | Reference => 2
  end.

(** Modelled from the spec: the successful results, with their latency. *)
Definition successes (ks : list BuiltKernel) : list (BuiltKernel * Z) :=
  omap (fun k => match measure k with
                 | Success latency => Some (k, latency)
                 | Failure _ => None
                 end) ks.

(** Modelled from the spec: the ranking; [x] is ranked before [y] when its
    latency is lower, ties broken by priority. *)
Definition beats (x y : BuiltKernel * Z) : bool :=
  (x.2 <? y.2)
  || ((x.2 =? y.2)
      && (priority (backend (descriptor x.1))
            <? priority (backend (descriptor y.1)))).

(** Modelled from the spec: the first in the ranking. *)
Fixpoint pick_winner (l : list (BuiltKernel * Z)) : option (BuiltKernel * Z) :=
  match l with
  | [] => None
  | x :: rest =>
      match pick_winner rest with
      | Some y => if beats y x then Some y else Some x
      | None => Some x
      end
  end.

(** Modelled from the spec: the backends the selector can fall back on. *)
Definition is_fallback_backend (b : BackendKind) : bool :=
  match b with
  | TemplatedCodegen => false
  | PrebuiltLibrary | Reference => true
  end.

(** Modelled from the spec: [select_kernel]; with no successful result the
    selector falls back on a requested reference or library backend, and
    fails with NoViableKernel when there is none. *)
Definition select_kernel (cfg : Config) (op : OperationSpec)
  : TerminalError + Selection :=
  match pick_winner (successes (to_benchmark cfg op)) with
  | Some (k, latency) =>
      inr {| winner := k;
             winner_result :=
               {| candidate := descriptor k; status := Success latency |} |}
  | None =>
      match List.find is_fallback_backend (requested_backends cfg) with
      | Some b =>
          let d := fallback_descriptor b op in
          let k :=
            {| descriptor :=
                 {| backend := b;
                    required_alignment := required_alignment d;
                    supported_layouts := supported_layouts d;
                    accumulator := accumulator d;
                    cast_hook := cast_hook d;
                    needs_output_eq_accumulation :=
                      needs_output_eq_accumulation d;
                    strict_reduced_precision := strict_reduced_precision d;
                    tile_efficiency := tile_efficiency d |};
               bound_op := op;
               handle := fallback_handle b op |} in
          inr {| winner := k; winner_result := benchmark k |}
      | None => inl NoViableKernel
      end
  end.

(** Modelled from the spec: the backend of the selected kernel, when
    there is one. *)
Definition winning_backend (cfg : Config) (op : OperationSpec)
  : option BackendKind :=
  match select_kernel cfg op with
  | inr sel => Some (backend (descriptor (winner sel)))
  | inl _ => None
  end.

End Selector.

(** Modelled from the spec: the operations of an epilogue graph, as far as
    the legality analysis tells them apart. *)
Inductive EpilogueOp :=
| Elementwise (name : string)
| Broadcast (name : string)
| CastTo (d : DType)
| DimensionScalar (name : string) (per_tile_broadcast : bool)
| NonElementwise (name : string).

(** Modelled from the spec: the reasons of a not-fusible verdict. *)
Inductive Reason :=
| NotTileReducible
| DtypeIncompatible
| ScalarNotBroadcastable.

(** Modelled from the spec: the legality verdict. *)
Inductive Verdict :=
| Fusible
| NotFusible (why : Reason).

(** Modelled from the spec: the legality of one epilogue operation in a
    kernel: a change of the output dtype to other than the accumulator
    needs the post-accumulation cast hook, and a dimension-derived scalar
    must be a broadcastable constant per output tile. *)
Definition op_verdict (c : CandidateDescriptor) (o : EpilogueOp) : Verdict :=
  match o with
  | Elementwise _ | Broadcast _ => Fusible
  | CastTo d =>
      if bool_decide (d = accumulator c) || cast_hook c
      then Fusible else NotFusible DtypeIncompatible
  | DimensionScalar _ per_tile =>
      if per_tile then Fusible else NotFusible ScalarNotBroadcastable
  | NonElementwise _ => NotFusible NotTileReducible
  end.

(** Modelled from the spec: an epilogue is fusible only if every one of its
    operations is. *)
Fixpoint legality (c : CandidateDescriptor) (epilogue : list EpilogueOp)
  : Verdict :=
  match epilogue with
  | [] => Fusible
  | o :: rest =>
      match op_verdict c o with
      | Fusible => legality c rest
      | NotFusible why => NotFusible why
      end
  end.

(** Modelled from the spec: the FusionPlan. *)
Record FusionPlan := {
  subgraph : list EpilogueOp;
  injection_point : BuiltKernel;
  verdict : Verdict
}.

(** Modelled from the spec: the last states of the state machine of a
    selected candidate. *)
Inductive FusionState := FusionNotApplicable | Fused | Unfused.

(** Modelled from the spec: the analyzer; it makes the plan for a kernel
    and an epilogue. *)
Definition analyze (k : BuiltKernel) (epilogue : list EpilogueOp)
  : FusionPlan :=
  {| subgraph := epilogue;
     injection_point := k;
     verdict := legality (descriptor k) epilogue |}.

(** Modelled from the spec: the analyzer applied to the winner; a
    successful fusion increments the epilogue fusion counter once, a failed
    one leaves it alone. *)
Definition fuse_epilogue (k : BuiltKernel) (epilogue : list EpilogueOp)
  (counter : Z) : FusionState * Z :=
  match epilogue with
  | [] => (FusionNotApplicable, counter)
  | _ =>
      match verdict (analyze k epilogue) with
      | Fusible => (Fused, counter + 1)
      | NotFusible _ => (Unfused, counter)
      end
  end.

(** Modelled from the spec: the end-to-end scenario is the half-precision
    matmul of a 100x10 by a 10x100 matrix for the templated and the
    reference backend; its operands are row-major. *)
Definition half_operand (stride : Z) : Operand :=
  {| leading_stride := stride; layout := RowMajor; operand_dtype := float16 |}.





(** Modelled from the spec: the operation of the scenario, of volume
    100 x 100 x 10. *)
Definition threshold_op : OperationSpec :=
  {| dim_m := 100;
     dim_n := 100;
     dim_k := 10;
     operands := [half_operand 10; half_operand 100; half_operand 100];
     output_dtype := float16;
     reduced_precision_accumulation := false |}.

(** Modelled from the spec: the configuration of the scenario. *)
Definition threshold_config (threshold : Z) : Config :=
  {| requested_backends := [TemplatedCodegen; Reference];
     min_problem_size := threshold;
     max_profiling_configs := 2 |}.

End Engine.

(** ** Concrete collaborators

    Executable instances of the interfaces above, on which the operator
    and the tests can be run. *)

Module Instances.

(** A dispatcher whose forward kernel answers [(query, key)] and whose
    backward kernel answers [(query, key, value)]. *)
Definition echo_dispatcher : Dispatcher :=
  {| dispatch name args :=
       ret (VTuple (take (if String.eqb name "templated_attention"
                          then 2%nat else 3%nat) args)) |}.

(** The argument positions a callable writes, through its wrappers. *)
Fixpoint writes_of (f : Callable) : list nat :=
  match f with
  | UserFn _ writes => writes
  | Vmap g _ _ => writes_of g
  | Functionalized g => writes_of g
  end.

(** A mutation check that reports every callable that writes one of its
    arguments. *)
Definition syntactic_check : HopUtils :=
  {| _has_potential_branch_input_mutation f example_vals pre_dispatch :=
       negb (bool_decide (writes_of f = [])) |}.

(** A functionalization context over plain tensors. *)
Definition plain_ctx : BaseFunctionalizeAPI :=
  {| unwrap_tensors v := v;
     wrap_tensors v := v;
     functionalize f := Functionalized f;
     mode_pre_dispatch := None |}.

(** Tensor operations on metadata only. *)
Definition with_dtype (t : Tensor) (d : DType) : Tensor :=
  mkTensor d (shape t) (device t) (requires_grad t) (is_contiguous t)
    (storage t).

Definition with_shape (t : Tensor) (s : list Z) : Tensor :=
  mkTensor (dtype t) s (device t) (requires_grad t) (is_contiguous t)
    (storage t).

(** A dimension index, counted from the end when negative. *)
Definition normalize_dim (rank : nat) (dim : Z) : option nat :=
  let d := if dim <? 0 then dim + Z.of_nat rank else dim in
  if (0 <=? d) && (d <? Z.of_nat rank) then Some (Z.to_nat d) else None.

Definition meta_transpose (t : Tensor) (dim0 dim1 : Z) : PyExn + Tensor :=
  match normalize_dim (length (shape t)) dim0,
        normalize_dim (length (shape t)) dim1 with
  | Some i, Some j =>
      match shape t !! i, shape t !! j with
      | Some x, Some y => inr (with_shape t (<[i := y]> (<[j := x]> (shape t))))
      | _, _ => inl (IndexError "Dimension out of range")
      end
  | _, _ => inl (IndexError "Dimension out of range")
  end.

(** The batch dimensions and the last two dimensions of a shape. *)
Definition split_last2 (s : list Z) : option (list Z * Z * Z) :=
  match reverse s with
  | n :: m :: batch => Some (reverse batch, m, n)
  | _ => None
  end.

Definition meta_matmul (a b : Tensor) : PyExn + Tensor :=
  if bool_decide (dtype a = dtype b) then
    match split_last2 (shape a), split_last2 (shape b) with
    | Some (batch_a, m, k), Some (batch_b, k', n) =>
        if bool_decide (batch_a = batch_b) && (k =? k')
        then inr (mkTensor (dtype a) (batch_a ++ [m; n]) (device a)
                    (requires_grad a || requires_grad b) true (storage a))
        else inl (RuntimeError "mat1 and mat2 shapes cannot be multiplied")
    | _, _ => inl (RuntimeError "both arguments to matmul need to be at least 2D")
    end
  else inl (RuntimeError "expected m1 and m2 to have the same dtype").

Definition meta_size (t : Tensor) (dim : Z) : PyExn + Z :=
  match normalize_dim (length (shape t)) dim with
  | Some i =>
      match shape t !! i with
      | Some n => inr n
      | None => inl (IndexError "Dimension out of range")
      end
  | None => inl (IndexError "Dimension out of range")
  end.

Definition reduction_dtype (d : DType) : DType :=
  if is_floating_point d then d else float32.

Definition meta_logsumexp (t : Tensor) (dim : Z) : PyExn + Tensor :=
  match normalize_dim (length (shape t)) dim with
  | Some i =>
      inr (with_dtype (with_shape t (delete i (shape t)))
             (reduction_dtype (dtype t)))
  | None => inl (IndexError "Dimension out of range")
  end.

Definition meta_softmax (t : Tensor) (dim : Z) : PyExn + Tensor :=
  match normalize_dim (length (shape t)) dim with
  | Some _ => inr (with_dtype t (reduction_dtype (dtype t)))
  | None => inl (IndexError "Dimension out of range")
  end.

Definition meta_contiguous (t : Tensor) : Tensor :=
  mkTensor (dtype t) (shape t) (device t) (requires_grad t) true (storage t).

Definition meta_iter (t : Tensor) : PyExn + list PyVal :=
  match shape t with
  | n :: rest => inr (replicate (Z.to_nat n) (VTensor (with_shape t rest)))
  | [] => inl (TypeError "iteration over a 0-d tensor")
  end.

(** One level of [vmap]: the arguments mapped over lose their leading
    dimension, whose size all of them share. *)
Fixpoint unbatch (in_dims : list (option Z)) (args : list PyVal)
  : option (option Z * list PyVal) :=
  match in_dims, args with
  | [], [] => Some (None, [])
  | None :: in_dims', x :: args' =>
      match unbatch in_dims' args' with
      | Some (n, xs) => Some (n, x :: xs)
      | None => None
      end
  | Some _ :: in_dims', VTensor t :: args' =>
      match shape t, unbatch in_dims' args' with
      | n :: rest, Some (n', xs) =>
          if bool_decide (n' = None) || bool_decide (n' = Some n)
          then Some (Some n, VTensor (with_shape t rest) :: xs)
          else None
      | _, _ => None
      end
  | _, _ => None
  end.

(** A user function answers its first argument, the score. *)
Fixpoint meta_call (f : Callable) (args : list PyVal) : PyExn + PyVal :=
  match f with
  | UserFn _ _ =>
      match args with
      | VTensor score :: _ => inr (VTensor score)
      | _ => inl (TypeError "score_mod expects a tensor")
      end
  | Functionalized g => meta_call g args
  | Vmap g in_dims _ =>
      match unbatch in_dims args with
      | Some (Some n, args') =>
          match meta_call g args' with
          | inr (VTensor r) => inr (VTensor (with_shape r (n :: shape r)))
          | inr _ => inl (TypeError "vmap expects tensor outputs")
          | inl e => inl e
          end
      | _ => inl (ValueError "vmap: inputs do not match in_dims")
      end
  end.

Definition MetaTorch : TorchOps :=
  {| matmul := meta_matmul;
     transpose := meta_transpose;
     to_dtype := with_dtype;
     size := meta_size;
     arange start stop dev :=
       mkTensor int64 [stop - start] dev false true 0;
     zeros s d rg := mkTensor d s "cpu" rg true 0;
     logsumexp := meta_logsumexp;
     softmax := meta_softmax;
     contiguous := meta_contiguous;
     tensor_iter := meta_iter;
     call f args := lift (meta_call f args) |}.

(** Sample tensors: batch 2, 3 heads, 4 queries, 5 keys, head size 8,
    value size 16. *)
Definition sample (d : DType) (s : list Z) (id : nat) : Tensor :=
  mkTensor d s "cpu" false true id.

Definition q16 : Tensor := sample float16 [2; 3; 4; 8] 1.
Definition k16 : Tensor := sample float16 [2; 3; 5; 8] 2.
Definition v16 : Tensor := sample float16 [2; 3; 5; 16] 3.
Definition bias : Tensor := sample float32 [5] 4.
Definition identity_score_mod : Callable := UserFn "score_mod" [].
(** A score function that writes its sixth argument, the first buffer. *)
Definition writing_score_mod : Callable := UserFn "score_mod" [5%nat].

(** A buffer that requires grad, and the context a forward leaves. *)
Definition grad_buffer : Tensor := mkTensor float32 [5] "cpu" true true 7.

Definition saved_ctx : FunctionCtx :=
  {| _fw_graph := VCallable identity_score_mod;
     _joint_graph := VCallable identity_score_mod;
     saved_tensors :=
       [VTensor q16; VTensor k16; VTensor v16; VTensor q16; VTensor k16;
        VTensor bias] |}.

(** The functions under test, run on metadata. *)
Import CutlassTest.

Fixpoint eval (e : Expr) (a b : Tensor) : PyExn + Tensor :=
  match e with
  | A => inr a
  | B => inr b
  | MatMul x y | Bmm x y =>
      match eval x a b, eval y a b with
      | inr u, inr v => meta_matmul u v
      | inl err, _ | _, inl err => inl err
      end
  | MulConst x _ | SubConst x _ | Relu x | ClampMax x _ => eval x a b
  | To x d =>
      match eval x a b with
      | inr u => inr (with_dtype u d)
      | inl err => inl err
      end
  | DivSize x operand dim =>
      match eval x a b, eval operand a b with
      | inr u, inr v =>
          match meta_size v dim with
          | inr _ => inr u
          | inl err => inl err
          end
      | inl err, _ | _, inl err => inl err
      end
  end.

Global Instance Tensor_eq_dec : EqDecision Tensor.
Proof. solve_decision. Defined.

(** [counters[group][name] += n] *)
Definition counter_add (group name : string) (n : Z)
  (c : gmap string (gmap string Z)) : gmap string (gmap string Z) :=
  counter_set group name (counter_get c group name + n) c.

(** A compiler that counts [fusions] epilogue fusions while it compiles and
    whose kernels compute what the eager function computes. *)
Definition counting_pipeline (fusions : Z) : Inductor :=
  {| version_hip := false;
     common_cuda_SM75OrLater := true;
     common_cuda_SM90OrLater := true;
     is_fbcode := false;
     __file__ := "/pytorch/test/inductor/test_cutlass_backend.py";
     import_environ := {[ "PATH" := "/opt/cache/bin:/usr/bin" ]};
     torch_compile_run mm dynamic a b :=
       run modify (set_counters (counter_add "inductor" fusion_counter fusions));
       lift (eval mm a b);
     eager_run := eval;
     assert_close actual expected atol rtol :=
       bool_decide (actual = expected) |}.

(** A compiler that also hands the choices [choices] to the patched
    [autotune_select_algorithm], as its second positional argument. *)
Definition recording_pipeline (choices : list Obj) : Inductor :=
  {| version_hip := false;
     common_cuda_SM75OrLater := true;
     common_cuda_SM90OrLater := true;
     is_fbcode := false;
     __file__ := "/pytorch/test/inductor/test_cutlass_backend.py";
     import_environ := {[ "PATH" := "/opt/cache/bin:/usr/bin" ]};
     torch_compile_run mm dynamic a b :=
       run modify (fun w =>
         set_patched
           ((fun calls => calls ++ [[OValue (VStr "mm"); OList choices]])
              <$> patched w) w);
       lift (eval mm a b);
     eager_run := eval;
     assert_close actual expected atol rtol :=
       bool_decide (actual = expected) |}.

(** The state of a fresh test process. *)
Definition fresh_world : TestWorld :=
  mkWorld ∅ false ∅ ∅ {[ "PATH" := "/opt/cache/bin:/usr/bin" ]}.

(** Collaborators of the selection engine: one templated kernel aligned to
    2 elements that runs in 5 time units, and a reference kernel that runs
    in 9. *)
Import Engine.

Definition templated_candidate : CandidateDescriptor :=
  {| backend := TemplatedCodegen;
     required_alignment := 2;
     supported_layouts := [[RowMajor; RowMajor; RowMajor]];
     accumulator := float32;
     cast_hook := false;
     needs_output_eq_accumulation := false;
     strict_reduced_precision := None;
     tile_efficiency := 3 |}.

Definition reference_candidate : CandidateDescriptor :=
  {| backend := Reference;
     required_alignment := 1;
     supported_layouts := [[RowMajor; RowMajor; RowMajor]];
     accumulator := float32;
     cast_hook := false;
     needs_output_eq_accumulation := false;
     strict_reduced_precision := None;
     tile_efficiency := 1 |}.

Definition sample_collaborators : Collaborators :=
  {| catalogue b op :=
       match b with
       | TemplatedCodegen => [templated_candidate]
       | PrebuiltLibrary => []
       | Reference => [reference_candidate]
       end;
     compile_kernel c op := Some 0%nat;
     measure k :=
       match backend (descriptor k) with
       | TemplatedCodegen => Success 5
       | _ => Success 9
       end;
     fallback_descriptor b op := reference_candidate;
     fallback_handle b op := 0%nat |}.

(** A kernel that accumulates in half precision and has no cast hook, and
    the epilogue that casts to float32 and then scales. *)
Definition half_accumulating_kernel : BuiltKernel :=
  {| descriptor :=
       {| backend := TemplatedCodegen;
          required_alignment := 8;
          supported_layouts := [[RowMajor; RowMajor; RowMajor]];
          accumulator := float16;
          cast_hook := false;
          needs_output_eq_accumulation := false;
          strict_reduced_precision := Some true;
          tile_efficiency := 3 |};
     bound_op :=
       {| dim_m := 256;
          dim_n := 256;
          dim_k := 32;
          operands := [half_operand 32; half_operand 256; half_operand 256];
          output_dtype := float32;
          reduced_precision_accumulation := true |};
     handle := 0 |}.

Definition cast_then_scale : list EpilogueOp :=
  [CastTo float32; Elementwise "mul"].


End Instances.

(** ** More of [test_cutlass_backend.py] *)

Module CutlassWorlds.
Import CutlassTest.
Section Worlds.
Context {I : Inductor}.

(** The configuration [test_max_autotune_cutlass_threshold] patches in. *)
Definition threshold_patch : gmap string PyVal :=
  list_to_map
    [("max_autotune", VBool true);
     ("autotune_in_subproc", VBool true);
     ("max_autotune_gemm_backends", VStr "CUTLASS,ATen");
     ("compile_threads", VInt 4);
     ("cuda.cutlass_backend_min_gemm_size", VInt 100000);
     ("cuda.cutlass_dir", VStr _CUTLASS_DIR);
     ("cuda.cutlass_max_profiling_configs", VInt 2)].

(** The name [test_max_autotune_cutlass_threshold] replaces by a mock. *)
Definition select_algorithm_target : string :=
  "torch._inductor.select_algorithm.autotune_select_algorithm".

(** The search path [test_max_autotune_cutlass_threshold] runs with. *)
Definition threshold_environ : gmap string string :=
  {[ "PATH" := TestSupport._get_path_without_sccache import_environ ]}.

(** The state in which [test_max_autotune_cutlass_threshold] calls the
    compiler: the search path is patched, the precision flag cleared, the
    configuration patched and the mock installed. *)
Definition threshold_compile_time (w : TestWorld) : TestWorld :=
  let w := set_os_environ (threshold_environ ∪ os_environ w) w in
  let w0 := set_allow_fp16 false w in
  let w1 := set_config (threshold_patch ∪ config w0) w0 in
  set_patched (<[select_algorithm_target := []]> (patched w1)) w1.

(** The two operands of [test_max_autotune_cutlass_threshold]. *)
Definition threshold_a : Tensor := half (cuda (randn [100; 10] 0)).
Definition threshold_b : Tensor := half (cuda (randn [10; 100] 1)).

End Worlds.
End CutlassWorlds.

(** ** The backward of the eager implementation *)

(** The further tensor operations that [sdpa_dense_backward] calls. *)
Class BackwardOps := {
  (** [torch.exp(t)] *)
  torch_exp : Tensor -> Tensor;
  (** [a - b] *)
  torch_sub : Tensor -> Tensor -> PyExn + Tensor;
  (** [a * b] *)
  torch_mul : Tensor -> Tensor -> PyExn + Tensor;
  (** [torch.sum(t, dim, keepdim=keepdim)] *)
  torch_sum : Tensor -> Z -> bool -> PyExn + Tensor;
  (** [t.unsqueeze(dim)] *)
  unsqueeze : Tensor -> Z -> PyExn + Tensor;
  (** [v[0]] on the result of a call *)
  getitem0 : PyVal -> PyExn + PyVal
}.

(** [transpose] keeps the dtype. *)
Class TransposeLaw (T : TorchOps) := {
  dtype_transpose : forall t dim0 dim1 r,
    transpose t dim0 dim1 = inr r -> dtype r = dtype t
}.

Section DenseBackward.
Context {T : TorchOps} {B : BackwardOps}.

(** [joint_graph] wrapped in [torch.vmap] four times; the score and the
    gradient are mapped over at each level, and only the first output is
    mapped. *)
Definition vmap_joint_graph (joint_graph : Callable)
  (other_buffers : list PyVal) : Callable :=
  let in_dim_buffers := replicate (length other_buffers) (@None Z) in
  let out_dims := [Some 0; None; None; None; None] in
  let joint_score_mod :=
    Vmap joint_graph
      ([Some 0; None; None; None; Some 0; Some 0] ++ in_dim_buffers)
      out_dims in
  let joint_score_mod :=
    Vmap joint_score_mod
      ([Some 0; None; None; Some 0; None; Some 0] ++ in_dim_buffers)
      out_dims in
  let joint_score_mod :=
    Vmap joint_score_mod
      ([Some 0; None; Some 0; None; None; Some 0] ++ in_dim_buffers)
      out_dims in
  Vmap joint_score_mod
    ([Some 0; Some 0; None; None; None; Some 0] ++ in_dim_buffers)
    out_dims.

(** [sdpa_dense_backward]: the implementation of the backward operator
    registered for [DispatchKey.CompositeExplicitAutograd]. *)
Definition sdpa_dense_backward (query key value out logsumexp grad_out : Tensor)
  (fw_graph joint_graph : Callable) (other_buffers : list PyVal)
  : M (Tensor * Tensor * Tensor) :=
  let working_precision :=
    if decide (dtype query = float64) then float64 else float32 in
  do key_t <- lift (transpose key (-2) (-1));
  do qk <- lift (matmul query key_t);
  let scores := to_dtype qk working_precision in
  do size0 <- lift (size scores 0);
  let b := arange 0 size0 (device scores) in
  do size1 <- lift (size scores 1);
  let h := arange 0 size1 (device scores) in
  do size2 <- lift (size scores 2);
  let m := arange 0 size2 (device scores) in
  do size3 <- lift (size scores 3);
  let n := arange 0 size3 (device scores) in
  let in_dim_buffers := replicate (length other_buffers) (@None Z) in
  let score_mod :=
    Vmap fw_graph ([Some 0; None; None; None; Some 0] ++ in_dim_buffers)
      [Some 0] in
  let score_mod :=
    Vmap score_mod ([Some 0; None; None; Some 0; None] ++ in_dim_buffers)
      [Some 0] in
  let score_mod :=
    Vmap score_mod ([Some 0; None; Some 0; None; None] ++ in_dim_buffers)
      [Some 0] in
  let score_mod :=
    Vmap score_mod ([Some 0; Some 0; None; None; None] ++ in_dim_buffers)
      [Some 0] in
  do modified <- call score_mod
    (VTensor scores :: VTensor b :: VTensor h :: VTensor m :: VTensor n
       :: other_buffers);
  do modified <- as_tensor modified "to";
  let scores := to_dtype modified working_precision in
  do lse <- lift (unsqueeze logsumexp (-1));
  do shifted <- lift (torch_sub scores lse);
  let softmax_scores := torch_exp shifted in
  do softmax_t <-
    lift (transpose (to_dtype softmax_scores (dtype query)) (-2) (-1));
  do grad_value <- lift (matmul softmax_t grad_out);
  do value_t <- lift (transpose value (-2) (-1));
  do grad_softmax_scores <- lift (matmul grad_out value_t);
  do out_grad <- lift (torch_mul out grad_out);
  do sum_scores <- lift (torch_sum out_grad (-1) true);
  do centered <- lift (torch_sub grad_softmax_scores sum_scores);
  do grad_score_mod <- lift (torch_mul softmax_scores centered);
  let joint_score_mod := vmap_joint_graph joint_graph other_buffers in
  do joint_out <- call joint_score_mod
    (VTensor scores :: VTensor b :: VTensor h :: VTensor m :: VTensor n
       :: VTensor grad_score_mod :: other_buffers);
  do first <- lift (getitem0 joint_out);
  do first <- as_tensor first "to";
  let grad_scores := to_dtype first (dtype query) in
  do grad_query <- lift (matmul grad_scores key);
  do grad_scores_t <- lift (transpose grad_scores (-2) (-1));
  do grad_key <- lift (matmul grad_scores_t query);
  ret (contiguous grad_query, contiguous grad_key, contiguous grad_value).

End DenseBackward.

(** ** The implementations under [FakeTensorMode] *)

(** What a [FakeTensorMode] gives inside [with mode:]: tensors without
    data, made by [new_empty] and [empty_like]. *)
Class FakeTensorMode := {
  (** [t.new_empty(sizes, dtype=dtype)] *)
  new_empty : Tensor -> list Z -> DType -> Tensor;
  (** [torch.empty_like(t, memory_format=torch.contiguous_format)] *)
  empty_like : Tensor -> Tensor
}.

(** [new_empty] makes a tensor of the sizes and dtype asked for;
    [empty_like] one of the sizes and dtype of its argument, contiguous. *)
Class FakeTensorLaws (F : FakeTensorMode) := {
  dtype_new_empty : forall t sizes d, dtype (new_empty t sizes d) = d;
  shape_new_empty : forall t sizes d, shape (new_empty t sizes d) = sizes;
  dtype_empty_like : forall t, dtype (empty_like t) = dtype t;
  shape_empty_like : forall t, shape (empty_like t) = shape t;
  empty_like_is_contiguous : forall t, is_contiguous (empty_like t) = true
}.

Section FakeTensor.
Context {F : FakeTensorMode}.

(** [templated_attention_fake_tensor_mode] *)
Definition templated_attention_fake_tensor_mode (query key value : Tensor)
  (score_mod : PyVal) (other_buffers : list PyVal) : M (Tensor * Tensor) :=
  match shape query with
  | [batch_size; num_heads; seq_len_q; _] =>
      let logsumexp :=
        new_empty query [batch_size; num_heads; seq_len_q] float32 in
      ret (empty_like query, logsumexp)
  | _ => raise (ValueError "wrong number of values to unpack (expected 4)")
  end.

(** [templated_attention_backward_fake_tensor_mode] *)
Definition templated_attention_backward_fake_tensor_mode
  (query key value out logsumexp grad_out : Tensor)
  (fw_graph joint_graph : PyVal) (other_buffers : list PyVal)
  : M (Tensor * Tensor * Tensor) :=
  let grad_query := empty_like query in
  let grad_key := empty_like key in
  let grad_value := empty_like value in
  ret (grad_query, grad_key, grad_value).

End FakeTensor.

(** ** More concrete collaborators *)

Module MoreInstances.
Import Instances.

(** The further tensor operations, on metadata: the elementwise
    operations keep the metadata of their first operand. *)
Definition MetaBackward : BackwardOps :=
  {| torch_exp t := t;
     torch_sub a b := inr a;
     torch_mul a b := inr a;
     torch_sum t dim keepdim :=
       match normalize_dim (length (shape t)) dim with
       | Some i =>
           inr (with_shape t (if keepdim then <[i := 1]> (shape t)
                              else delete i (shape t)))
       | None => inl (IndexError "Dimension out of range")
       end;
     unsqueeze t dim :=
       match normalize_dim (S (length (shape t))) dim with
       | Some i => inr (with_shape t (take i (shape t) ++ 1 :: drop i (shape t)))
       | None => inl (IndexError "Dimension out of range")
       end;
     getitem0 v :=
       match v with
       | VTuple (x :: _) => inr x
       | VTensor t =>
           match shape t with
           | _ :: rest => inr (VTensor (with_shape t rest))
           | [] => inl (IndexError "invalid index of a 0-dim tensor")
           end
       | _ => inl (IndexError "index out of range")
       end |}.

(** A callable with several outputs: a joint graph under [vmap]. *)
Definition has_out_dims (f : Callable) : bool :=
  match f with
  | Vmap _ _ (_ :: _ :: _) => true
  | _ => false
  end.

(** The tensor operations on metadata, with calls that answer a tuple for
    a joint graph: the gradient of the score, and no gradient for the four
    indices. *)
Definition MetaTorchGrad : TorchOps :=
  {| matmul := meta_matmul;
     transpose := meta_transpose;
     to_dtype := with_dtype;
     size := meta_size;
     arange start stop dev :=
       mkTensor int64 [stop - start] dev false true 0;
     zeros s d rg := mkTensor d s "cpu" rg true 0;
     logsumexp := meta_logsumexp;
     softmax := meta_softmax;
     contiguous := meta_contiguous;
     tensor_iter := meta_iter;
     call f args :=
       lift (match meta_call f args with
             | inr v =>
                 if has_out_dims f
                 then inr (VTuple [v; VNone; VNone; VNone; VNone])
                 else inr v
             | inl e => inl e
             end) |}.

Definition MetaFake : FakeTensorMode :=
  {| new_empty t sizes d := mkTensor d sizes (device t) false true 0;
     empty_like t := mkTensor (dtype t) (shape t) (device t) false true 0 |}.

(** Sample tensors in double precision. *)
Definition q64 : Tensor := sample float64 [2; 3; 4; 8] 1.
Definition k64 : Tensor := sample float64 [2; 3; 5; 8] 2.
Definition v64 : Tensor := sample float64 [2; 3; 5; 16] 3.
(** A sample output, logsumexp and output gradient of the half-precision
    attention. *)
Definition out16 : Tensor := sample float16 [2; 3; 4; 16] 5.
Definition lse32 : Tensor := sample float32 [2; 3; 4] 6.

(** An environment with the compiler cache on its search path. *)
Definition sample_environ : gmap string string :=
  {[ "PATH" := "/usr/bin:/opt/cache/bin:/bin" ]}.

(** A parent [setUp] that fails, and one that returns. *)
Definition failing_setUp : St TestSupport.Process unit :=
  raise (RuntimeError "setUp failed").
Definition plain_setUp : St TestSupport.Process unit := ret tt.
Definition sample_process : TestSupport.Process :=
  TestSupport.mkProcess sample_environ None.

End MoreInstances.

(** * Properties *)

(** ** Python building blocks *)

Lemma forallb_elem_of {X} (f : X -> bool) (l : list X) :
  forallb f l = true <-> (forall x, x ∈ l -> f x = true).
Proof.
  rewrite forallb_forall. split; intros H x Hx; apply H.
  - by apply list_elem_of_In.
  - by apply list_elem_of_In in Hx.
Qed.

Lemma forallb_false_elem_of {X} (f : X -> bool) (l : list X) :
  (exists x, x ∈ l /\ f x = false) -> forallb f l = false.
Proof.
  intros (x & Hx & Hf). destruct (forallb f l) eqn:E; [|done].
  rewrite forallb_elem_of in E. rewrite (E x Hx) in Hf. done.
Qed.

Lemma bind_ret {S X Y} (x : X) (k : X -> St S Y) st :
  bind (ret x) k st = k x st.
Proof. reflexivity. Qed.

Lemma bind_inr {S X Y} (c : St S X) (k : X -> St S Y) st x st' :
  c st = (inr x, st') -> bind c k st = k x st'.
Proof. unfold bind. by intros ->. Qed.

(** A successful [bind] went through a successful first computation. *)
Lemma bind_success {S X Y} (c : St S X) (k : X -> St S Y) st y st2 :
  bind c k st = (inr y, st2) ->
  exists x st1, c st = (inr x, st1) /\ k x st1 = (inr y, st2).
Proof.
  unfold bind. destruct (c st) as [[e | x] st1]; [done|]. eauto.
Qed.

Lemma py_assert_success {S} (cond : bool) msg (st st' : S) u :
  py_assert cond msg st = (inr u, st') -> cond = true /\ st' = st.
Proof. destruct cond; cbn; [|done]. intros [= _ <-]. done. Qed.

Lemma lift_success {S X} (r : PyExn + X) (st st' : S) x :
  lift r st = (inr x, st') -> r = inr x /\ st' = st.
Proof. unfold lift. by intros [= -> <-]. Qed.

(** Split a successful [bind] [H] into its first step [Hx], with result
    [x] and state [st], and the rest, which stays in [H]. *)
Tactic Notation "bind_inv" hyp(H) "as" ident(x) ident(st) ident(Hx) :=
  apply bind_success in H as (x & st & Hx & H).

(** ** The guard on [other_buffers] *)

(** C8: when some element of [other_buffers] is not a tensor, a call of
    [templated_attention] or of [templated_attention_backward] raises
    [RuntimeError("Other buffers must be tensors.")] and leaves the trace as
    it was: the dispatcher is not entered and nothing is computed on query,
    key or value.  When every element is a tensor the check does not raise:
    the call is the call of the dispatcher. *)
Theorem other_buffers_must_be_tensors {D : Dispatcher}
  (query key value score_mod out logsumexp grad_out fw_graph joint_graph
     : PyVal) (other_buffers : list PyVal) (tr : list Event) :
  ((exists buf, buf ∈ other_buffers /\ isinstance_Tensor buf = false) ->
   templated_attention query key value score_mod other_buffers tr
     = (inl (RuntimeError "Other buffers must be tensors."), tr)
   /\ templated_attention_backward query key value out logsumexp grad_out
        fw_graph joint_graph other_buffers tr
     = (inl (RuntimeError "Other buffers must be tensors."), tr))
  /\
  ((forall buf, buf ∈ other_buffers -> isinstance_Tensor buf = true) ->
   templated_attention query key value score_mod other_buffers tr
     = HigherOrderOperator_call "templated_attention"
         (query :: key :: value :: score_mod :: other_buffers) tr
   /\ templated_attention_backward query key value out logsumexp grad_out
        fw_graph joint_graph other_buffers tr
     = HigherOrderOperator_call "templated_attention_backward"
         (query :: key :: value :: out :: logsumexp :: grad_out
            :: fw_graph :: joint_graph :: other_buffers) tr).
Proof.
  unfold templated_attention, templated_attention_backward,
    TemplatedAttentionHOP.__call__, TemplatedAttentionBackwardHOP.__call__.
  split.
  - intros Hbad. rewrite (forallb_false_elem_of _ _ Hbad). done.
  - intros Hall. apply forallb_elem_of in Hall. rewrite Hall. done.
Qed.

Lemma other_buffers_must_be_tensors_witness :
  (@templated_attention Instances.echo_dispatcher
     (VTensor Instances.q16) (VTensor Instances.k16) (VTensor Instances.v16)
     (VCallable Instances.identity_score_mod) [VInt 3] []
   = (inl (RuntimeError "Other buffers must be tensors."), []))
  /\
  (@templated_attention_backward Instances.echo_dispatcher
     (VTensor Instances.q16) (VTensor Instances.k16) (VTensor Instances.v16)
     VNone VNone VNone VNone VNone [VTensor Instances.bias] []
   = @HigherOrderOperator_call Instances.echo_dispatcher
       "templated_attention_backward"
       [VTensor Instances.q16; VTensor Instances.k16; VTensor Instances.v16;
        VNone; VNone; VNone; VNone; VNone; VTensor Instances.bias] []).
Proof.
  split.
  - apply (@other_buffers_must_be_tensors Instances.echo_dispatcher
             (VTensor Instances.q16) (VTensor Instances.k16)
             (VTensor Instances.v16) (VCallable Instances.identity_score_mod)
             VNone VNone VNone VNone VNone [VInt 3] []).
    exists (VInt 3). split; [apply list_elem_of_here | reflexivity].
  - apply (@other_buffers_must_be_tensors Instances.echo_dispatcher
             (VTensor Instances.q16) (VTensor Instances.k16)
             (VTensor Instances.v16) VNone
             VNone VNone VNone VNone VNone [VTensor Instances.bias] []).
    intros buf Hbuf. apply list_elem_of_singleton in Hbuf. subst. reflexivity.
Defined.

(** ** The autograd function *)

Section Autograd.
Context {D : Dispatcher} {T : TorchOps}.

Lemma any_requires_grad_true (bufs : list PyVal) :
  (forall buf, buf ∈ bufs -> isinstance_Tensor buf = true) ->
  (exists t, VTensor t ∈ bufs /\ requires_grad t = true) ->
  any_requires_grad bufs = inr true.
Proof.
  induction bufs as [|buf rest IH]; intros Hall (t & Hin & Hgrad).
  - by apply elem_of_nil in Hin.
  - assert (Hbuf : isinstance_Tensor buf = true)
      by (apply Hall; apply list_elem_of_here).
    destruct buf as [| | | |t0| |]; try discriminate Hbuf. cbn.
    destruct (requires_grad t0) eqn:E; [done|].
    apply IH.
    + intros b Hb. apply Hall. by apply list_elem_of_further.
    + exists t. split; [|done].
      apply elem_of_cons in Hin as [Heq | Hin]; [|done].
      injection Heq as ->. congruence.
Qed.

Lemma any_requires_grad_false (bufs : list PyVal) :
  any_requires_grad bufs = inr false ->
  Forall (fun buf => exists t, buf = VTensor t /\ requires_grad t = false) bufs.
Proof.
  induction bufs as [|buf rest IH]; intros H; [constructor|].
  cbn in H. destruct buf as [| | | |t| |]; try discriminate H. cbn in H.
  destruct (requires_grad t) eqn:E; [discriminate H|].
  constructor; eauto.
Qed.

(** C9: gradients exist for query, key and value only.  The forward raises
    the assertion error when a captured buffer requires grad, so a forward
    that returns has saved buffers none of which requires grad; and a
    backward that returns yields the three input gradients followed by
    [2 + len(other_buffers)] times [None], one for each of the two graphs
    and one for every buffer. *)
Theorem gradients_only_for_query_key_value :
  (forall ctx query key value fw_graph joint_graph other_buffers tr,
     (forall buf, buf ∈ other_buffers -> isinstance_Tensor buf = true) ->
     (exists t, VTensor t ∈ other_buffers /\ requires_grad t = true) ->
     TemplatedAttentionAutogradOp.forward ctx query key value fw_graph
       joint_graph other_buffers tr
     = (inl (AssertionError
               "Captured buffers that require grad are not yet supported."),
        tr))
  /\
  (forall ctx query key value fw_graph joint_graph other_buffers tr
          ctx' res tr',
     TemplatedAttentionAutogradOp.forward ctx query key value fw_graph
       joint_graph other_buffers tr = (inr (ctx', res), tr') ->
     Forall (fun buf => exists t, buf = VTensor t /\ requires_grad t = false)
       other_buffers
     /\ exists out logsumexp,
          res = VTuple [out; logsumexp]
          /\ saved_tensors ctx'
             = query :: key :: value :: out :: logsumexp :: other_buffers)
  /\
  (forall ctx grad_out logsumexp_grad tr res tr',
     TemplatedAttentionAutogradOp.backward ctx grad_out logsumexp_grad tr
       = (inr res, tr') ->
     exists query key value out logsumexp other_buffers
            grad_query grad_key grad_value,
       saved_tensors ctx
         = query :: key :: value :: out :: logsumexp :: other_buffers
       /\ res = VTuple ([grad_query; grad_key; grad_value]
                          ++ replicate (2 + length other_buffers)%nat VNone)).
Proof.
  split; [|split].
  - intros ctx query key value fw_graph joint_graph other_buffers tr Hall Hgrad.
    unfold TemplatedAttentionAutogradOp.forward.
    rewrite (bind_inr _ _ tr true tr).
    + reflexivity.
    + unfold lift. by rewrite any_requires_grad_true.
  - intros ctx query key value fw_graph joint_graph other_buffers tr
      ctx' res tr' H.
    unfold TemplatedAttentionAutogradOp.forward in H.
    bind_inv H as any_grad tr1 Hany. apply lift_success in Hany as [Hany ->].
    bind_inv H as u tr2 Hnot. apply py_assert_success in Hnot as [Hnot ->].
    apply negb_true_iff in Hnot. subst any_grad.
    bind_inv H as outs tr3 Hcall. destruct outs as [out logsumexp].
    injection H as <- <- <-. split.
    + by apply any_requires_grad_false.
    + by exists out, logsumexp.
  - intros ctx grad_out logsumexp_grad tr res tr' H.
    unfold TemplatedAttentionAutogradOp.backward in H.
    destruct (saved_tensors ctx)
      as [|query [|key [|value [|out [|logsumexp other_buffers]]]]];
      try discriminate H.
    bind_inv H as r tr1 Hcall. bind_inv H as grads tr2 Hunpack.
    destruct grads as [[grad_query grad_key] grad_value].
    injection H as <- <-.
    by exists query, key, value, out, logsumexp, other_buffers,
      grad_query, grad_key, grad_value.
Qed.

End Autograd.

Lemma gradients_only_for_query_key_value_witness :
  (@TemplatedAttentionAutogradOp.forward
     Instances.echo_dispatcher Instances.MetaTorch Instances.saved_ctx
     (VTensor Instances.q16) (VTensor Instances.k16) (VTensor Instances.v16)
     (VCallable Instances.identity_score_mod)
     (VCallable Instances.identity_score_mod) [VTensor Instances.grad_buffer] []
   = (inl (AssertionError
             "Captured buffers that require grad are not yet supported."),
      []))
  /\
  (exists query key value out logsumexp other_buffers
          grad_query grad_key grad_value,
     saved_tensors Instances.saved_ctx
       = query :: key :: value :: out :: logsumexp :: other_buffers
     /\ VTuple [VTensor Instances.q16; VTensor Instances.k16;
                VTensor Instances.v16; VNone; VNone; VNone]
        = VTuple ([grad_query; grad_key; grad_value]
                    ++ replicate (2 + length other_buffers)%nat VNone)).
Proof.
  pose proof (@gradients_only_for_query_key_value
                Instances.echo_dispatcher Instances.MetaTorch)
    as (Hassert & _ & Hback).
  split.
  - apply Hassert.
    + intros buf Hbuf. apply list_elem_of_singleton in Hbuf. subst. reflexivity.
    + exists Instances.grad_buffer. split; [apply list_elem_of_here | reflexivity].
  - apply (Hback Instances.saved_ctx (VTensor Instances.q16) VNone []
             (VTuple [VTensor Instances.q16; VTensor Instances.k16;
                      VTensor Instances.v16; VNone; VNone; VNone])
             [EvDispatch "templated_attention_backward"
                [VTensor Instances.q16; VTensor Instances.k16;
                 VTensor Instances.v16; VTensor Instances.q16;
                 VTensor Instances.k16; VTensor Instances.q16;
                 VCallable Instances.identity_score_mod;
                 VCallable Instances.identity_score_mod;
                 VTensor Instances.bias]]).
    reflexivity.
Defined.

(** ** The eager implementation *)

Section EagerPrecision.
Context {T : TorchOps} {L : TorchOpsLaws T}.

Lemma working_precision_is_floating (query : Tensor) :
  is_floating_point (working_precision_of query) = true.
Proof. unfold working_precision_of. by case_decide. Qed.

Lemma modified_scores_dtype query key score_mod other_buffers tr scores tr' :
  modified_scores query key score_mod other_buffers tr = (inr scores, tr') ->
  dtype scores = working_precision_of query.
Proof.
  unfold modified_scores. intros H.
  bind_inv H as key_t tr1 H1. bind_inv H as qk tr2 H2.
  bind_inv H as size0 tr3 H3. bind_inv H as size1 tr4 H4.
  bind_inv H as size2 tr5 H5. bind_inv H as size3 tr6 H6.
  bind_inv H as modified tr7 H7. bind_inv H as t tr8 H8.
  injection H as <- <-. apply dtype_to_dtype.
Qed.

(** When every operation it calls returns, [math_attention] returns: the
    logsumexp and the product of the probabilities with the value. *)
Lemma math_attention_returns (query key value : Tensor)
  (score_mod : Callable) (other_buffers : list PyVal) (tr tr' : list Event)
  (key_t qk modified lse probabilities out : Tensor)
  (size0 size1 size2 size3 : Z) :
  let working_precision := working_precision_of query in
  let scores := to_dtype qk working_precision in
  transpose key (-2) (-1) = inr key_t ->
  matmul query key_t = inr qk ->
  size scores 0 = inr size0 ->
  size scores 1 = inr size1 ->
  size scores 2 = inr size2 ->
  size scores 3 = inr size3 ->
  call (vmap_score_mod score_mod other_buffers)
    (VTensor scores
       :: VTensor (arange 0 size0 (device scores))
       :: VTensor (arange 0 size1 (device scores))
       :: VTensor (arange 0 size2 (device scores))
       :: VTensor (arange 0 size3 (device scores))
       :: other_buffers) tr
    = (inr (VTensor modified), tr') ->
  logsumexp (to_dtype modified working_precision) (-1) = inr lse ->
  softmax (to_dtype modified working_precision) (-1) = inr probabilities ->
  matmul (to_dtype probabilities (dtype query)) value = inr out ->
  math_attention query key value score_mod other_buffers tr
    = (inr (out, lse), tr').
Proof.
  intros working_precision scores Ht Hqk H0 H1 H2 H3 Hcall Hlse Hsoft Hout.
  unfold math_attention, modified_scores.
  fold working_precision.
  unfold bind, lift. rewrite Ht, Hqk. fold scores.
  rewrite H0, H1, H2, H3, Hcall. cbn [as_tensor ret].
  rewrite Hlse, Hsoft, Hout. reflexivity.
Qed.

(** C10: [math_attention] works in float64 when the query is float64 and in
    float32 otherwise: the scores that reach [logsumexp] and [softmax] have
    that working precision, the returned logsumexp keeps it, and the
    returned output, the product of the probabilities cast to the query's
    dtype with the value, has the query's dtype.  [sdpa_dense] returns the
    same pair with the output made contiguous. *)
Theorem math_attention_working_precision
  (query key value : Tensor) (score_mod : Callable)
  (other_buffers : list PyVal) (tr : list Event) :
  (dtype query = float64 -> working_precision_of query = float64)
  /\
  (dtype query <> float64 -> working_precision_of query = float32)
  /\
  (forall out lse tr',
     math_attention query key value score_mod other_buffers tr
       = (inr (out, lse), tr') ->
     exists scores probabilities,
       modified_scores query key score_mod other_buffers tr
         = (inr scores, tr')
       /\ dtype scores = working_precision_of query
       /\ logsumexp scores (-1) = inr lse
       /\ softmax scores (-1) = inr probabilities
       /\ dtype probabilities = working_precision_of query
       /\ matmul (to_dtype probabilities (dtype query)) value = inr out
       /\ dtype out = dtype query
       /\ dtype lse = working_precision_of query)
  /\
  (forall out lse tr',
     math_attention query key value score_mod other_buffers tr
       = (inr (out, lse), tr') ->
     sdpa_dense query key value score_mod other_buffers tr
       = (inr (contiguous out, lse), tr')
     /\ dtype (contiguous out) = dtype query
     /\ is_contiguous (contiguous out) = true
     /\ dtype lse = working_precision_of query)
  /\
  (forall out lse tr',
     sdpa_dense query key value score_mod other_buffers tr
       = (inr (out, lse), tr') ->
     dtype out = dtype query
     /\ is_contiguous out = true
     /\ dtype lse = working_precision_of query).
Proof.
  assert (Hmath : forall out lse tr',
    math_attention query key value score_mod other_buffers tr
      = (inr (out, lse), tr') ->
    exists scores probabilities,
      modified_scores query key score_mod other_buffers tr = (inr scores, tr')
      /\ dtype scores = working_precision_of query
      /\ logsumexp scores (-1) = inr lse
      /\ softmax scores (-1) = inr probabilities
      /\ dtype probabilities = working_precision_of query
      /\ matmul (to_dtype probabilities (dtype query)) value = inr out
      /\ dtype out = dtype query
      /\ dtype lse = working_precision_of query).
  { intros out lse tr' H. unfold math_attention in H.
    bind_inv H as scores tr1 Hscores.
    pose proof (modified_scores_dtype _ _ _ _ _ _ _ Hscores) as Hdt.
    pose proof (working_precision_is_floating query) as Hfl.
    bind_inv H as lse0 tr2 Hlse. apply lift_success in Hlse as [Hlse ->].
    bind_inv H as probs tr3 Hsoft. apply lift_success in Hsoft as [Hsoft ->].
    bind_inv H as out0 tr4 Hout. apply lift_success in Hout as [Hout ->].
    injection H as -> -> ->.
    exists scores, probs.
    assert (Hp : dtype probs = working_precision_of query).
    { rewrite <- Hdt. eapply dtype_softmax; [|done]. by rewrite Hdt. }
    assert (Hl : dtype lse = working_precision_of query).
    { rewrite <- Hdt. eapply dtype_logsumexp; [|done]. by rewrite Hdt. }
    destruct (dtype_matmul _ _ _ Hout) as [_ Ho].
    rewrite dtype_to_dtype in Ho. done. }
  split; [|split; [|split; [exact Hmath|split]]].
  - intros Hq. unfold working_precision_of. by case_decide.
  - intros Hq. unfold working_precision_of. by case_decide.
  - intros out lse tr' H.
    destruct (Hmath _ _ _ H) as (scores & probs & _ & _ & _ & _ & _ & _ & Ho & Hl).
    split; [|by rewrite dtype_contiguous, contiguous_is_contiguous].
    unfold sdpa_dense. by rewrite (bind_inr _ _ _ _ _ H).
  - intros out lse tr' H. unfold sdpa_dense in H.
    bind_inv H as pair tr1 Hpair. destruct pair as [out0 lse0].
    injection H as <- <- <-.
    destruct (Hmath _ _ _ Hpair) as (scores & probs & _ & _ & _ & _ & _ & _ & Ho & Hl).
    by rewrite dtype_contiguous, contiguous_is_contiguous.
Qed.

End EagerPrecision.

Global Instance MetaTorchLaws : TorchOpsLaws Instances.MetaTorch.
Proof.
  split; cbn.
  - reflexivity.
  - intros a b c. unfold Instances.meta_matmul.
    case_bool_decide as Hd; [|done].
    destruct (Instances.split_last2 (shape a)) as [[[ba m] k]|]; [|done].
    destruct (Instances.split_last2 (shape b)) as [[[bb k'] n]|]; [|done].
    destruct (_ && _); [|done]. intros [= <-]. done.
  - intros t dim r Hfl. unfold Instances.meta_logsumexp.
    destruct (Instances.normalize_dim _ _); [|done]. intros [= <-]. cbn.
    unfold Instances.reduction_dtype. by rewrite Hfl.
  - intros t dim r Hfl. unfold Instances.meta_softmax.
    destruct (Instances.normalize_dim _ _); [|done]. intros [= <-]. cbn.
    unfold Instances.reduction_dtype. by rewrite Hfl.
  - reflexivity.
  - reflexivity.
Qed.

Lemma math_attention_working_precision_witness :
  let out := mkTensor float16 [2; 3; 4; 16] "cpu" false true 1 in
  let lse := mkTensor float32 [2; 3; 4] "cpu" false true 1 in
  working_precision_of Instances.q16 = float32
  /\ @math_attention Instances.MetaTorch Instances.q16 Instances.k16
       Instances.v16 Instances.identity_score_mod
       [VTensor Instances.bias] [] = (inr (out, lse), [])
  /\ dtype out = dtype Instances.q16
  /\ is_contiguous out = true
  /\ dtype lse = working_precision_of Instances.q16.
Proof.
  intros out lse.
  pose proof (@math_attention_working_precision
                Instances.MetaTorch MetaTorchLaws
                Instances.q16 Instances.k16 Instances.v16
                Instances.identity_score_mod [VTensor Instances.bias] [])
    as (_ & H32 & _ & _ & Hdense).
  split; [apply H32; discriminate|].
  split; [reflexivity|].
  apply (Hdense out lse []). reflexivity.
Defined.

(** ** Functionalization and mutations *)

(** C5, as stated, fails on the backward operator: a score function that
    writes its first buffer, which the mutation check reports, goes through
    [templated_attention_backward_functionalize] without an exception; the
    run enters the dispatcher and returns the gradients. *)
Lemma backward_functionalize_accepts_mutation :
  let example_vals :=
    [VTensor (@zeros Instances.MetaTorch [] float16 false)]
      ++ replicate 4%nat (VTensor (@zeros Instances.MetaTorch [] int32 false))
      ++ [VTensor Instances.bias] in
  @_has_potential_branch_input_mutation Instances.syntactic_check
    (functionalize Instances.plain_ctx Instances.writing_score_mod)
    example_vals false = true
  /\
  @templated_attention_backward_functionalize
    Instances.echo_dispatcher Instances.MetaTorch Instances.plain_ctx
    (VTensor Instances.q16) (VTensor Instances.k16) (VTensor Instances.v16)
    (VTensor Instances.q16) (VTensor Instances.q16) (VTensor Instances.q16)
    Instances.writing_score_mod Instances.writing_score_mod
    [VTensor Instances.bias] []
  = (inr (VTuple [VTensor Instances.q16; VTensor Instances.k16;
                  VTensor Instances.v16]),
     [EvEnter RedispatchToNext;
      EvDispatch "templated_attention_backward"
        [VTensor Instances.q16; VTensor Instances.k16; VTensor Instances.v16;
         VTensor Instances.q16; VTensor Instances.q16; VTensor Instances.q16;
         VCallable (Functionalized Instances.writing_score_mod);
         VCallable (Functionalized Instances.writing_score_mod);
         VTensor Instances.bias];
      EvExit RedispatchToNext]).
Proof. split; reflexivity. Qed.

Section FunctionalizeProperties.
Context {D : Dispatcher} {U : HopUtils} {T : TorchOps}.

Lemma all_tensors_is_tuple (v : PyVal) :
  all_tensors v = true -> isinstance_tuple v = true.
Proof. by destruct v. Qed.

(** C5, amended: under functionalization the forward operator raises
    [UnsupportedAliasMutationException] inside the redispatch block, before
    the dispatcher is entered, whenever the mutation check reports a
    mutation for the functionalized score function on the example values;
    when it reports none, the operator redispatches on the unwrapped
    arguments and wraps the result.  The backward operator makes no
    mutation check: it redispatches and wraps the three gradients. *)
Theorem functionalize_mutation_check (ctx : BaseFunctionalizeAPI)
  (query : Tensor) (key value out logsumexp grad_out : PyVal)
  (score_mod fw_graph joint_graph : Callable) (other_buffers : list PyVal)
  (tr : list Event) :
  let query_unwrapped := unwrap_tensors ctx (VTensor query) in
  let key_unwrapped := unwrap_tensors ctx key in
  let value_unwrapped := unwrap_tensors ctx value in
  let buffers_unwrapped :=
    tuple_items (unwrap_tensors ctx (VTuple other_buffers)) in
  let example_vals :=
    [VTensor (zeros [] (dtype query) false)]
      ++ replicate 4%nat (VTensor (zeros [] int32 false))
      ++ buffers_unwrapped in
  let pre_dispatch := default false (mode_pre_dispatch ctx) in
  let mutates :=
    _has_potential_branch_input_mutation
      (functionalize ctx score_mod) example_vals pre_dispatch in
  isinstance_Tensor query_unwrapped = true ->
  isinstance_Tensor key_unwrapped = true ->
  isinstance_Tensor value_unwrapped = true ->
  all_tensors (unwrap_tensors ctx (VTuple other_buffers)) = true ->
  (mutates = true ->
   templated_attention_functionalize ctx (VTensor query) key value
     score_mod other_buffers tr
   = (inl (UnsupportedAliasMutationException
             "Mutations detected in score_mod"),
      tr ++ [EvEnter RedispatchToNext; EvExit RedispatchToNext]))
  /\
  (mutates = false ->
   templated_attention_functionalize ctx (VTensor query) key value
     score_mod other_buffers tr
   = let '(r, tr') :=
       templated_attention query_unwrapped key_unwrapped value_unwrapped
         (VCallable (functionalize ctx score_mod)) buffers_unwrapped
         (tr ++ [EvEnter RedispatchToNext]) in
     (match r with
      | inl e => inl e
      | inr res => inr (wrap_tensors ctx res)
      end, tr' ++ [EvExit RedispatchToNext]))
  /\
  (isinstance_Tensor (unwrap_tensors ctx out) = true ->
   isinstance_Tensor (unwrap_tensors ctx logsumexp) = true ->
   isinstance_Tensor (unwrap_tensors ctx grad_out) = true ->
   forall grad_query grad_key grad_value tr',
     templated_attention_backward query_unwrapped key_unwrapped
       value_unwrapped (unwrap_tensors ctx out)
       (unwrap_tensors ctx logsumexp) (unwrap_tensors ctx grad_out)
       (VCallable (functionalize ctx fw_graph))
       (VCallable (functionalize ctx joint_graph)) buffers_unwrapped
       (tr ++ [EvEnter RedispatchToNext])
     = (inr (VTuple [grad_query; grad_key; grad_value]), tr') ->
     templated_attention_backward_functionalize ctx (VTensor query) key value
       out logsumexp grad_out fw_graph joint_graph other_buffers tr
     = (inr (wrap_tensors ctx (VTuple [grad_query; grad_key; grad_value])),
        tr' ++ [EvExit RedispatchToNext])).
Proof.
  intros query_unwrapped key_unwrapped value_unwrapped buffers_unwrapped
    example_vals pre_dispatch mutates Hq Hk Hv Hb.
  pose proof (all_tensors_is_tuple _ Hb) as Ht.
  split; [|split].
  - intros Hm. unfold templated_attention_functionalize.
    fold query_unwrapped key_unwrapped value_unwrapped.
    rewrite Hq, Hk, Hv, Hb, Ht. cbn [py_assert].
    rewrite !bind_ret. cbn [getattr_dtype]. rewrite bind_ret.
    unfold bind, with_guard.
    fold buffers_unwrapped. fold example_vals.
    replace (match mode_pre_dispatch ctx with
             | Some flag => flag | None => false end)
      with pre_dispatch by (unfold pre_dispatch; by destruct (mode_pre_dispatch ctx)).
    fold mutates. rewrite Hm. cbn. by rewrite <- app_assoc.
  - intros Hm. unfold templated_attention_functionalize.
    fold query_unwrapped key_unwrapped value_unwrapped.
    rewrite Hq, Hk, Hv, Hb, Ht. cbn [py_assert].
    rewrite !bind_ret. cbn [getattr_dtype]. rewrite bind_ret.
    unfold bind, with_guard.
    fold buffers_unwrapped. fold example_vals.
    replace (match mode_pre_dispatch ctx with
             | Some flag => flag | None => false end)
      with pre_dispatch by (unfold pre_dispatch; by destruct (mode_pre_dispatch ctx)).
    fold mutates. rewrite Hm.
    destruct (templated_attention _ _ _ _ _ _) as [[e | res] tr']; reflexivity.
  - intros Ho Hl Hg grad_query grad_key grad_value tr' Hcall.
    unfold templated_attention_backward_functionalize.
    fold query_unwrapped key_unwrapped value_unwrapped.
    rewrite Hq, Hk, Hv, Ho, Hl, Hg, Hb, Ht. cbn [py_assert].
    rewrite !bind_ret. unfold with_guard.
    fold buffers_unwrapped.
    unfold bind at 1. unfold bind at 1. rewrite Hcall. reflexivity.
Qed.

End FunctionalizeProperties.

Lemma functionalize_mutation_check_witness :
  (@templated_attention_functionalize
     Instances.echo_dispatcher Instances.syntactic_check Instances.MetaTorch
     Instances.plain_ctx
     (VTensor Instances.q16) (VTensor Instances.k16) (VTensor Instances.v16)
     Instances.writing_score_mod [VTensor Instances.bias] []
   = (inl (UnsupportedAliasMutationException
             "Mutations detected in score_mod"),
      [EvEnter RedispatchToNext; EvExit RedispatchToNext]))
  /\
  (@templated_attention_backward_functionalize
     Instances.echo_dispatcher Instances.MetaTorch Instances.plain_ctx
     (VTensor Instances.q16) (VTensor Instances.k16) (VTensor Instances.v16)
     (VTensor Instances.q16) (VTensor Instances.q16) (VTensor Instances.q16)
     Instances.identity_score_mod Instances.identity_score_mod
     [VTensor Instances.bias] []
   = (inr (VTuple [VTensor Instances.q16; VTensor Instances.k16;
                   VTensor Instances.v16]),
      [EvEnter RedispatchToNext;
       EvDispatch "templated_attention_backward"
         [VTensor Instances.q16; VTensor Instances.k16; VTensor Instances.v16;
          VTensor Instances.q16; VTensor Instances.q16; VTensor Instances.q16;
          VCallable (Functionalized Instances.identity_score_mod);
          VCallable (Functionalized Instances.identity_score_mod);
          VTensor Instances.bias]]
        ++ [EvExit RedispatchToNext])).
Proof.
  split.
  - destruct (@functionalize_mutation_check
                Instances.echo_dispatcher Instances.syntactic_check
                Instances.MetaTorch Instances.plain_ctx Instances.q16
                (VTensor Instances.k16) (VTensor Instances.v16)
                (VTensor Instances.q16) (VTensor Instances.q16)
                (VTensor Instances.q16)
                Instances.writing_score_mod Instances.identity_score_mod
                Instances.identity_score_mod [VTensor Instances.bias] []
                eq_refl eq_refl eq_refl eq_refl) as (Hraise & _ & _).
    apply Hraise. reflexivity.
  - destruct (@functionalize_mutation_check
                Instances.echo_dispatcher Instances.syntactic_check
                Instances.MetaTorch Instances.plain_ctx Instances.q16
                (VTensor Instances.k16) (VTensor Instances.v16)
                (VTensor Instances.q16) (VTensor Instances.q16)
                (VTensor Instances.q16)
                Instances.writing_score_mod Instances.identity_score_mod
                Instances.identity_score_mod [VTensor Instances.bias] []
                eq_refl eq_refl eq_refl eq_refl) as (_ & _ & Hback).
    apply Hback; reflexivity.
Defined.

(** ** What the epilogue fusion tests accept *)

Section Harness.
Import CutlassTest.
Context {I : Inductor}.

Lemma config_patch_success {R} changes (body : St TestWorld R) w r w' :
  config_patch changes body w = (inr r, w') ->
  exists w1, body (set_config (changes ∪ config w) w) = (inr r, w1)
             /\ w' = set_config (config w) w1.
Proof.
  unfold config_patch.
  destruct (body _) as [res w1]. intros [= -> <-]. eauto.
Qed.

(** A run that the harness accepts ends with the fusion counter at the
    expected count. *)
Lemma fusion_harness_accepts dynamic backends mixed_precision fp16
  expected_fuse_count mm batch_size w w' :
  _test_max_autotune_cutlass_backend_epilogue_fusion dynamic backends
    mixed_precision fp16 expected_fuse_count mm batch_size w = (inr tt, w') ->
  counter_get (counters w') "inductor" fusion_counter = expected_fuse_count.
Proof.
  unfold _test_max_autotune_cutlass_backend_epilogue_fusion. intros H.
  bind_inv H as u0 w0 H0.
  destruct (fusion_inputs fp16 batch_size) as [a b].
  apply config_patch_success in H as (w1 & H & ->).
  bind_inv H as u1 w2 H1. bind_inv H as Y_compiled w3 H2.
  bind_inv H as Y w4 H3. bind_inv H as w5 w6 H4.
  injection H4 as -> ->.
  bind_inv H as u2 w7 H5. apply py_assert_success in H5 as [Hcount ->].
  unfold testing_assert_close in H.
  apply py_assert_success in H as [_ ->].
  cbn. by apply Z.eqb_eq in Hcount.
Qed.

(** What the harness answers when the compiler and the eager run return:
    it compares the counter the compiler left with the expected count, and
    then the two outputs. *)
Lemma fusion_harness_run dynamic backends mixed_precision fp16
  expected_fuse_count mm batch_size w Y_compiled Y w1 :
  torch_compile_run mm dynamic
    (fusion_inputs fp16 batch_size).1 (fusion_inputs fp16 batch_size).2
    (at_compile_time mixed_precision backends w) = (inr Y_compiled, w1) ->
  eager_run mm
    (fusion_inputs fp16 batch_size).1 (fusion_inputs fp16 batch_size).2
    = inr Y ->
  _test_max_autotune_cutlass_backend_epilogue_fusion dynamic backends
    mixed_precision fp16 expected_fuse_count mm batch_size w
  = (let actual_count := counter_get (counters w1) "inductor" fusion_counter in
     if actual_count =? expected_fuse_count
     then if assert_close Y_compiled Y
               (Some (decimal 1 100)) (Some (decimal 1 100))
          then inr tt
          else inl (AssertionError "Tensor-likes are not close!")
     else inl (AssertionError
                 (fuse_count_message expected_fuse_count actual_count)),
     set_config (config w) w1).
Proof.
  intros Hcompile Heager.
  unfold _test_max_autotune_cutlass_backend_epilogue_fusion.
  destruct (fusion_inputs fp16 batch_size) as [a b]. cbn [fst snd] in *.
  unfold bind at 1. cbn [modify].
  unfold config_patch. cbn [config set_allow_fp16].
  unfold bind at 1. cbn [modify].
  unfold bind at 1. fold (at_compile_time mixed_precision backends w).
  rewrite Hcompile.
  unfold bind at 1. unfold lift. rewrite Heager.
  unfold bind at 1. cbn [get].
  unfold bind, py_assert, testing_assert_close, py_assert.
  destruct (_ =? _); [|reflexivity].
  destruct (assert_close _ _ _ _); reflexivity.
Qed.

(** A test that returns under the decorators of the fusion tests was not
    skipped: its body returned. *)
Lemma fusion_test_decorators_success test w w' :
  fusion_test_decorators test w = (inr tt, w') -> test w = (inr tt, w').
Proof.
  unfold fusion_test_decorators, skipIf.
  destruct (negb SM90OrLater); [discriminate|].
  destruct version_hip; [discriminate|].
  destruct is_fbcode; [discriminate|]. done.
Qed.

End Harness.

(** ** The epilogue fusion analyzer *)

Section Analyzer.
Import Engine.

Lemma legality_not_fusible (c : CandidateDescriptor)
  (epilogue : list EpilogueOp) (o : EpilogueOp) (why : Reason) :
  o ∈ epilogue -> op_verdict c o = NotFusible why ->
  exists why', legality c epilogue = NotFusible why'.
Proof.
  induction epilogue as [|o' rest IH]; intros Hin Hop.
  - by apply elem_of_nil in Hin.
  - cbn. destruct (op_verdict c o') eqn:E; [|eauto].
    apply elem_of_cons in Hin as [-> | Hin]; [congruence | auto].
Qed.

Lemma widening_cast_verdict (c : CandidateDescriptor) (d : DType) :
  bits (accumulator c) < bits d -> cast_hook c = false ->
  op_verdict c (CastTo d) = NotFusible DtypeIncompatible.
Proof.
  intros Hwide Hhook. cbn. rewrite Hhook.
  case_bool_decide as Heq; [|done]. subst d. lia.
Qed.

(** C4: an epilogue that casts the output to a dtype wider than the
    accumulator of a kernel without a cast stage is not fusible: the
    analyzer leaves it unfused and the epilogue fusion counter is not
    incremented.  The test of the half-precision matmul whose epilogue
    casts to float32 before scaling accepts only runs that end with the
    counter at 0. *)
Theorem widening_cast_is_not_fused :
  (forall (k : BuiltKernel) (epilogue : list EpilogueOp) (d : DType)
          (counter : Z),
     CastTo d ∈ epilogue ->
     bits (accumulator (descriptor k)) < bits d ->
     cast_hook (descriptor k) = false ->
     (exists why, verdict (analyze k epilogue) = NotFusible why)
     /\ fuse_epilogue k epilogue counter = (Unfused, counter))
  /\
  (forall (I : CutlassTest.Inductor) (w w' : CutlassTest.TestWorld),
     CutlassTest.test_max_autotune_cutlass_backend_no_fusion_dtype_mismatch w
       = (inr tt, w') ->
     CutlassTest.counter_get (CutlassTest.counters w') "inductor"
       CutlassTest.fusion_counter = 0).
Proof.
  split.
  - intros k epilogue d counter Hin Hwide Hhook.
    destruct (legality_not_fusible (descriptor k) epilogue (CastTo d)
                DtypeIncompatible Hin (widening_cast_verdict _ _ Hwide Hhook))
      as [why Hwhy].
    split; [by exists why|].
    unfold fuse_epilogue. destruct epilogue as [|o rest].
    + by apply elem_of_nil in Hin.
    + cbn [analyze verdict]. by rewrite Hwhy.
  - intros I w w' H.
    apply fusion_test_decorators_success in H. revert H.
    apply fusion_harness_accepts.
Qed.







End Analyzer.



Lemma widening_cast_is_not_fused_witness :
  Engine.fuse_epilogue Instances.half_accumulating_kernel
    Instances.cast_then_scale 0 = (Engine.Unfused, 0)
  /\ CutlassTest.counter_get
       (CutlassTest.counters
          (snd (@CutlassTest.test_max_autotune_cutlass_backend_no_fusion_dtype_mismatch
                  (Instances.counting_pipeline 0) Instances.fresh_world)))
       "inductor" CutlassTest.fusion_counter = 0.
Proof.
  destruct widening_cast_is_not_fused as [Hanalyzer Htest]. split.
  - apply (Hanalyzer Instances.half_accumulating_kernel
             Instances.cast_then_scale float32 0).
    + apply list_elem_of_here.
    + reflexivity.
    + reflexivity.
  - apply (Htest (Instances.counting_pipeline 0) Instances.fresh_world).
    apply injective_projections; [vm_compute; reflexivity | reflexivity].
Defined.

(** ** The feasibility filter and the selector *)

Section SelectorProperties.
Import Engine.
Context {C : Collaborators}.

Lemma to_benchmark_built cfg op k :
  k ∈ to_benchmark cfg op -> k ∈ built_kernels cfg op.
Proof.
  unfold to_benchmark. intros Hk.
  apply subseteq_take in Hk.
  by rewrite merge_sort_Permutation in Hk.
Qed.

Lemma built_kernel_feasible cfg op k :
  k ∈ built_kernels cfg op -> descriptor k ∈ feasible_candidates cfg op.
Proof.
  unfold built_kernels. intros Hk.
  apply list_elem_of_omap in Hk as (c & Hc & Hbuild).
  unfold build in Hbuild.
  destruct (compile_kernel c op); [|done].
  injection Hbuild as <-. done.
Qed.

(** Every descriptor that reaches benchmarking passed the filter and comes
    from the catalogue of a requested backend. *)
Lemma benchmark_list_feasible cfg op c :
  c ∈ benchmark_list cfg op ->
  is_feasible cfg c op = true /\ backend c ∈ requested_backends cfg.
Proof.
  unfold benchmark_list. intros Hc.
  apply list_elem_of_fmap in Hc as (k & -> & Hk).
  apply to_benchmark_built, built_kernel_feasible in Hk.
  unfold feasible_candidates in Hk.
  apply list_elem_of_filter in Hk as [Hfeasible Hall]. split; [done|].
  unfold all_candidates in Hall.
  apply list_elem_of_bind in Hall as (b & Hb & Hreq).
  unfold enumerate_candidates in Hb.
  apply list_elem_of_filter in Hb as [<- _]. done.
Qed.

Lemma feasible_large_enough cfg c op :
  is_feasible cfg c op = true -> large_enough cfg c op = true.
Proof.
  unfold is_feasible. intros H.
  repeat (apply andb_true_iff in H as [H ?]). done.
Qed.

(** C3: when the volume of the operation is below the minimum problem
    size, the list of candidates passed to benchmarking, the list the
    injection point of the selector shows, holds no templated-codegen
    candidate. *)
Theorem below_threshold_no_templated_candidate (cfg : Config)
  (op : OperationSpec) :
  volume op < min_problem_size cfg ->
  forall c, c ∈ benchmark_list cfg op -> backend c <> TemplatedCodegen.
Proof.
  intros Hsmall c Hc Htag.
  apply benchmark_list_feasible in Hc as [Hfeasible _].
  apply feasible_large_enough in Hfeasible.
  unfold large_enough in Hfeasible. rewrite Htag in Hfeasible.
  apply Z.leb_le in Hfeasible. lia.
Qed.

Lemma pick_winner_elem_of (l : list (BuiltKernel * Z)) x :
  pick_winner l = Some x -> x ∈ l.
Proof.
  revert x. induction l as [|y rest IH]; intros x H; [done|].
  cbn in H. destruct (pick_winner rest) as [z|].
  - destruct (beats z y); injection H as <-.
    + apply list_elem_of_further. by apply IH.
    + apply list_elem_of_here.
  - injection H as <-. apply list_elem_of_here.
Qed.

Lemma successes_elem_of (ks : list BuiltKernel) k latency :
  (k, latency) ∈ successes ks -> k ∈ ks.
Proof.
  unfold successes. intros H.
  apply list_elem_of_omap in H as (k' & Hk' & Hm).
  destruct (measure k'); [|done]. by injection Hm as -> _.
Qed.

(** C2, amended: in the scenario of the 100x10 by 10x100 half-precision
    matmul with the templated and the reference backend requested, a
    threshold of 100000 is met by the volume and the size rule keeps every
    candidate, so that feasibility is decided by the other four rules;
    with a threshold above the volume every candidate that reaches
    benchmarking is a reference candidate, and the selector returns a
    winner of the reference backend. *)
Theorem threshold_boundary (threshold : Z) :
  volume threshold_op = 100000
  /\ (threshold <= 100000 ->
      forall c,
        large_enough (threshold_config threshold) c threshold_op = true
        /\ is_feasible (threshold_config threshold) c threshold_op
           = aligned c threshold_op && layout_supported c threshold_op
               && output_dtype_ok c threshold_op && precision_ok c threshold_op)
  /\ (100000 < threshold ->
      (forall c, c ∈ benchmark_list (threshold_config threshold) threshold_op ->
                 backend c = Reference)
      /\ exists sel,
           select_kernel (threshold_config threshold) threshold_op = inr sel
           /\ backend (descriptor (winner sel)) = Reference).
Proof.
  split; [reflexivity|]. split.
  - intros Hle c.
    assert (Hsize : large_enough (threshold_config threshold) c threshold_op
                    = true).
    { unfold large_enough. destruct (backend c); [|done..].
      apply Z.leb_le. change (threshold <= 100000). lia. }
    split; [exact Hsize|].
    unfold is_feasible. rewrite Hsize. by rewrite andb_true_r.
  - intros Hgt.
    assert (Hsmall : volume threshold_op
                     < min_problem_size (threshold_config threshold))
      by (change (100000 < threshold); lia).
    assert (Hlist : forall c,
      c ∈ benchmark_list (threshold_config threshold) threshold_op ->
      backend c = Reference).
    { intros c Hc.
      apply benchmark_list_feasible in Hc as [Hfeasible Hreq]. cbn in Hreq.
      apply elem_of_cons in Hreq as [Htag | Hreq];
        [|by apply list_elem_of_singleton in Hreq].
      apply feasible_large_enough in Hfeasible.
      unfold large_enough in Hfeasible. rewrite Htag in Hfeasible.
      apply Z.leb_le in Hfeasible. lia. }
    split; [exact Hlist|].
    unfold select_kernel.
    destruct (pick_winner _) as [[k latency]|] eqn:Hpick.
    + eexists. split; [reflexivity|]. cbn.
      apply pick_winner_elem_of, successes_elem_of in Hpick.
      apply Hlist. unfold benchmark_list.
      apply list_elem_of_fmap. by exists k.
    + cbn. eexists. split; reflexivity.
Qed.

End SelectorProperties.

Lemma below_threshold_no_templated_candidate_witness :
  Engine.volume Engine.threshold_op
    < Engine.min_problem_size (Engine.threshold_config 100001)
  /\ Instances.reference_candidate
       ∈ @Engine.benchmark_list Instances.sample_collaborators
           (Engine.threshold_config 100001) Engine.threshold_op
  /\ Engine.backend Instances.reference_candidate <> Engine.TemplatedCodegen.
Proof.
  assert (Hin : Instances.reference_candidate
                  ∈ @Engine.benchmark_list Instances.sample_collaborators
                      (Engine.threshold_config 100001) Engine.threshold_op)
    by (vm_compute; apply list_elem_of_here).
  split; [reflexivity|]. split; [exact Hin|].
  apply (@below_threshold_no_templated_candidate
           Instances.sample_collaborators
           (Engine.threshold_config 100001) Engine.threshold_op);
    [reflexivity | exact Hin].
Defined.

Lemma threshold_boundary_witness :
  Engine.large_enough (Engine.threshold_config 100000)
    Instances.templated_candidate Engine.threshold_op = true
  /\ exists sel,
       @Engine.select_kernel Instances.sample_collaborators
         (Engine.threshold_config 100001) Engine.threshold_op = inr sel
       /\ Engine.backend (Engine.descriptor (Engine.winner sel))
          = Engine.Reference.
Proof.
  split.
  - destruct (@threshold_boundary Instances.sample_collaborators 100000)
      as (_ & Hkeep & _).
    apply Hkeep. lia.
  - destruct (@threshold_boundary Instances.sample_collaborators 100001)
      as (_ & _ & Hdrop).
    apply Hdrop. lia.
Defined.

(** C2, as stated, fails: with the threshold at 100000, which the volume
    meets, a templated-codegen candidate aligned to 2 elements passes every
    rule of the filter, reaches benchmarking, and wins over the reference
    candidate. *)
Lemma templated_candidate_kept_at_threshold :
  Engine.volume Engine.threshold_op = 100000
  /\ Engine.is_feasible (Engine.threshold_config 100000)
       Instances.templated_candidate Engine.threshold_op = true
  /\ @Engine.benchmark_list Instances.sample_collaborators
       (Engine.threshold_config 100000) Engine.threshold_op
     = [Instances.templated_candidate; Instances.reference_candidate]
  /\ @Engine.winning_backend Instances.sample_collaborators
       (Engine.threshold_config 100000) Engine.threshold_op
     = Some Engine.TemplatedCodegen.
Proof. repeat split; vm_compute; reflexivity. Qed.

(** ** What the threshold test reads *)

(** The threshold test subscripts the mock itself and not its recorded
    call: it iterates a child mock, which has no items, so that its two
    assertions on the choices hold whatever was handed to the patched
    function.  A compiler that hands it a [CUDATemplateCaller] passes the
    test. *)
Lemma threshold_test_reads_child_mock :
  fst (@CutlassTest.test_max_autotune_cutlass_threshold
         (Instances.recording_pipeline
            [CutlassTest.OChoiceCaller CutlassTest.CUDATemplateCaller])
         Instances.fresh_world) = inr tt.
Proof. vm_compute. reflexivity. Qed.

(** * More of the sources *)

(** ** The search path without the compiler cache *)

Section Path.
Import Stdlib.Strings.Ascii.
Import TestSupport.

Lemma append_empty (s : string) : EmptyString +:+ s = s.
Proof. reflexivity. Qed.

Lemma append_String c (s1 s2 : string) :
  String c s1 +:+ s2 = String c (s1 +:+ s2).
Proof. reflexivity. Qed.

Lemma split_nonempty sep s : split sep s <> [].
Proof.
  destruct s as [|c rest]; cbn; [done|].
  destruct (Ascii.eqb c sep); [done|]. by destruct (split sep rest).
Qed.

Lemma join_cons sep piece rest :
  rest <> [] -> join sep (piece :: rest) = piece +:+ sep +:+ join sep rest.
Proof. by destruct rest. Qed.

(** Joining the pieces of a string gives the string back. *)
Lemma join_split sep s : join (String sep EmptyString) (split sep s) = s.
Proof.
  induction s as [|c rest IH]; [done|]. cbn [split].
  destruct (Ascii.eqb c sep) eqn:E.
  - apply Ascii.eqb_eq in E as ->.
    rewrite join_cons by apply split_nonempty. cbn. by rewrite IH.
  - pose proof (split_nonempty sep rest) as Hne.
    destruct (split sep rest) as [|piece pieces]; [done|].
    destruct pieces as [|piece' pieces].
    + cbn in *. by rewrite IH.
    + change (String c (piece +:+ String sep EmptyString
                          +:+ join (String sep EmptyString) (piece' :: pieces))
              = String c rest).
      f_equal. exact IH.
Qed.

Lemma split_free_of sep s :
  Forall (fun piece => free_of sep piece = true) (split sep s).
Proof.
  induction s as [|c rest IH]; cbn [split]; [by repeat constructor|].
  destruct (Ascii.eqb c sep) eqn:E; [by constructor|].
  destruct (split sep rest) as [|piece pieces].
  - repeat constructor. cbn [free_of]. by rewrite E.
  - inversion IH as [|? ? Hpiece Hpieces]; subst.
    constructor; [|done]. cbn [free_of]. by rewrite E, Hpiece.
Qed.

Lemma split_app_free sep piece s :
  free_of sep piece = true ->
  split sep (piece +:+ String sep s) = piece :: split sep s.
Proof.
  induction piece as [|c piece IH]; intros Hfree.
  - rewrite append_empty. cbn [split]. by rewrite Ascii.eqb_refl.
  - cbn [free_of] in Hfree. apply andb_true_iff in Hfree as [Hc Hfree].
    apply negb_true_iff in Hc.
    rewrite append_String. cbn [split]. rewrite Hc. by rewrite IH.
Qed.

Lemma split_free sep piece :
  free_of sep piece = true -> split sep piece = [piece].
Proof.
  induction piece as [|c piece IH]; intros Hfree;
    cbn -[Ascii.eqb] in *; [done|].
  apply andb_true_iff in Hfree as [Hc Hfree].
  apply negb_true_iff in Hc. rewrite Hc. by rewrite IH.
Qed.

(** Splitting the join of pieces without separator gives the pieces back. *)
Lemma split_join sep pieces :
  pieces <> [] ->
  Forall (fun piece => free_of sep piece = true) pieces ->
  split sep (join (String sep EmptyString) pieces) = pieces.
Proof.
  induction pieces as [|piece rest IH]; intros Hne Hfree; [done|].
  inversion Hfree as [|? ? Hpiece Hrest]; subst.
  destruct rest as [|piece' rest].
  - cbn. by apply split_free.
  - rewrite join_cons by done.
    change (String sep EmptyString +:+ ?x) with (String sep x).
    rewrite split_app_free by done. by rewrite IH.
Qed.

Lemma filter_all {X} (P : X -> Prop) `{!forall x, Decision (P x)} (l : list X) :
  (forall x, x ∈ l -> P x) -> filter P l = l.
Proof.
  induction l as [|x l IH]; intros Hall; [done|].
  rewrite filter_cons_True by (apply Hall; apply list_elem_of_here).
  f_equal. apply IH. intros y Hy. apply Hall. by apply list_elem_of_further.
Qed.

Lemma kept_entries_free environ :
  Forall (fun piece => free_of ":"%char piece = true) (kept_entries environ).
Proof.
  apply Forall_forall. intros x Hx. unfold kept_entries in Hx.
  apply list_elem_of_filter in Hx as [_ Hx].
  pose proof (split_free_of ":"%char (environ_get environ "PATH" "")) as H.
  by eapply Forall_forall in H.
Qed.

Lemma result_entries (environ : gmap string string) :
  (kept_entries environ <> [] ->
   split ":"%char (_get_path_without_sccache environ) = kept_entries environ)
  /\ (kept_entries environ = [] -> _get_path_without_sccache environ = "").
Proof.
  unfold _get_path_without_sccache. fold (kept_entries environ). split.
  - intros Hne. apply split_join; [done | apply kept_entries_free].
  - by intros ->.
Qed.

Lemma result_entries_clean (environ : gmap string string) (env : string) :
  env ∈ split ":"%char (_get_path_without_sccache environ) ->
  contains sccache_dir env = false.
Proof.
  destruct (result_entries environ) as [Hkept Hnone]. intros Henv.
  destruct (kept_entries environ) as [|e rest] eqn:E.
  - rewrite Hnone in Henv by done. cbn in Henv.
    apply list_elem_of_singleton in Henv as ->. reflexivity.
  - rewrite Hkept in Henv by done.
    assert (Hin : env ∈ kept_entries environ) by (by rewrite E).
    unfold kept_entries in Hin.
    by apply list_elem_of_filter in Hin as [Hclean _].
Qed.

(** X1: the search path that [_get_path_without_sccache] returns holds, in
    their order, exactly the entries of [PATH] that do not contain
    [/opt/cache/bin], so that none of its entries contains it; when no entry
    is left, and when [PATH] is not set, it is the empty string. *)
Theorem path_without_sccache_entries (environ : gmap string string) :
  (kept_entries environ <> [] ->
   split ":"%char (_get_path_without_sccache environ) = kept_entries environ)
  /\ (kept_entries environ = [] -> _get_path_without_sccache environ = "")
  /\ (forall env,
        env ∈ split ":"%char (_get_path_without_sccache environ) ->
        contains sccache_dir env = false)
  /\ (environ !! "PATH" = None -> _get_path_without_sccache environ = "").
Proof.
  destruct (result_entries environ) as [Hkept Hnone].
  split; [done|]. split; [done|]. split.
  - apply result_entries_clean.
  - intros Hunset. unfold _get_path_without_sccache, environ_get.
    by rewrite Hunset.
Qed.

(** X2: a search path with no entry that contains [/opt/cache/bin] comes
    back unchanged; hence filtering twice is filtering once: on an
    environment whose [PATH] is already the result, the result is the
    same. *)
Theorem path_without_sccache_unchanged (environ : gmap string string) :
  (forall path,
     environ !! "PATH" = Some path ->
     (forall env, env ∈ split ":"%char path ->
                  contains sccache_dir env = false) ->
     _get_path_without_sccache environ = path)
  /\
  _get_path_without_sccache
    (<["PATH" := _get_path_without_sccache environ]> environ)
  = _get_path_without_sccache environ.
Proof.
  assert (Hclean : forall (e : gmap string string) path,
    e !! "PATH" = Some path ->
    (forall env, env ∈ split ":"%char path ->
                 contains sccache_dir env = false) ->
    _get_path_without_sccache e = path).
  { intros e path Hpath Hall. unfold _get_path_without_sccache, environ_get.
    rewrite Hpath. rewrite filter_all by done. apply join_split. }
  split; [apply Hclean|].
  apply Hclean; [apply lookup_insert_eq|].
  intros env. apply result_entries_clean.
Qed.

End Path.

Section PathWitnesses.
Import Stdlib.Strings.Ascii.

Lemma path_without_sccache_entries_witness :
  TestSupport.split ":"%char
    (TestSupport._get_path_without_sccache MoreInstances.sample_environ)
  = ["/usr/bin"; "/bin"]
  /\ TestSupport._get_path_without_sccache MoreInstances.sample_environ
     = "/usr/bin:/bin".
Proof.
  destruct (path_without_sccache_entries MoreInstances.sample_environ)
    as (Hkept & _).
  split; [|vm_compute; reflexivity].
  rewrite Hkept; [vm_compute; reflexivity|].
  vm_compute. discriminate.
Defined.

Lemma path_without_sccache_unchanged_witness :
  TestSupport._get_path_without_sccache {[ "PATH" := "/usr/bin:/bin" ]}
  = "/usr/bin:/bin".
Proof.
  destruct (path_without_sccache_unchanged {[ "PATH" := "/usr/bin:/bin" ]})
    as [Hclean _].
  apply Hclean; [reflexivity|].
  intros env Henv. vm_compute in Henv.
  apply elem_of_cons in Henv as [-> | Henv]; [reflexivity|].
  apply list_elem_of_singleton in Henv as ->. reflexivity.
Defined.

End PathWitnesses.

(** ** The set-up of the test class *)

Section SetUp.
Import TestSupport.

(** What [setUp] does, whatever the parent does: the parent runs with the
    variable at "1", and the variable gets its old value, or the empty
    string, when the parent has run. *)
Lemma setUp_run (super_setUp : St Process unit) (p : Process) :
  setUp super_setUp p
  = let old := environ_get (environ p) fresh_cache_var "" in
    let '(r, p1) := super_setUp (set_environ fresh_cache_var "1" p) in
    match r with
    | inr _ => (inr tt, set_seed 1234 (set_environ fresh_cache_var old p1))
    | inl e => (inl e, set_environ fresh_cache_var old p1)
    end.
Proof.
  unfold setUp, bind, get, try_finally, modify. cbn.
  destruct (super_setUp _) as [[e | u] p1]; reflexivity.
Qed.

(** X3: [setUp] puts [INDUCTOR_TEST_DISABLE_FRESH_CACHE] back on every
    path, also when the parent's [setUp] raises and whatever the parent
    does to it: afterwards the variable holds its old value, and the empty
    string when it was not set (it is not removed).  The other variables
    are as the parent left them.  The seed is set to 1234 exactly when the
    parent returns; an exception of the parent is passed on. *)
Theorem setUp_restores_environment (super_setUp : St Process unit)
  (p : Process) :
  let after := (setUp super_setUp p).2 in
  let parent := super_setUp (set_environ fresh_cache_var "1" p) in
  environ (set_environ fresh_cache_var "1" p) !! fresh_cache_var = Some "1"
  /\ environ after !! fresh_cache_var
     = Some (default "" (environ p !! fresh_cache_var))
  /\ (forall name, name <> fresh_cache_var ->
        environ after !! name = environ parent.2 !! name)
  /\ (forall e, parent.1 = inl e ->
        (setUp super_setUp p).1 = inl e /\ seed after = seed parent.2)
  /\ (parent.1 = inr tt ->
        (setUp super_setUp p).1 = inr tt /\ seed after = Some 1234).
Proof.
  intros after parent. subst after. rewrite setUp_run. fold parent.
  assert (Hold : environ_get (environ p) fresh_cache_var ""
                 = default "" (environ p !! fresh_cache_var)).
  { unfold environ_get. by destruct (environ p !! fresh_cache_var). }
  cbn zeta. rewrite Hold.
  destruct parent as [[e | []] p1]; cbn.
  - split; [apply lookup_insert_eq|]. split; [apply lookup_insert_eq|].
    split; [intros name Hne; by apply lookup_insert_ne|].
    split; [by intros e' [= <-]|done].
  - split; [apply lookup_insert_eq|]. split; [apply lookup_insert_eq|].
    split; [intros name Hne; by apply lookup_insert_ne|].
    split; [done|done].
Qed.

End SetUp.

Lemma setUp_restores_environment_witness :
  (TestSupport.setUp MoreInstances.failing_setUp
     MoreInstances.sample_process).1
  = inl (RuntimeError "setUp failed")
  /\ TestSupport.seed
       (TestSupport.setUp MoreInstances.plain_setUp
          MoreInstances.sample_process).2 = Some 1234.
Proof.
  split.
  - destruct (setUp_restores_environment MoreInstances.failing_setUp
                MoreInstances.sample_process) as (_ & _ & _ & Hfail & _).
    apply Hfail. reflexivity.
  - destruct (setUp_restores_environment MoreInstances.plain_setUp
                MoreInstances.sample_process) as (_ & _ & _ & _ & Hok).
    apply Hok. reflexivity.
Defined.

(** ** The threshold test under its decorators *)

Section ThresholdTest.
Import CutlassTest CutlassWorlds.
Context {I : Inductor}.

Lemma SM75OrLater_not_hip : SM75OrLater = true -> version_hip = false.
Proof.
  unfold SM75OrLater. intros H. apply andb_true_iff in H as [_ H].
  by apply negb_true_iff in H.
Qed.

(** X4: [test_max_autotune_cutlass_threshold] is skipped with "need sm_75"
    when [SM75OrLater] is false, which it is on HIP, so that the early
    return of its body on HIP is never reached; and it is skipped when
    [config.is_fbcode()] holds.  In both cases nothing is changed.
    Otherwise the two assertions on the choices handed to
    [autotune_select_algorithm] cannot fail: the test subscripts the mock
    and iterates what it gets, which has no items.  When the compiler and
    the eager run return, the verdict of the test is the comparison of the
    two outputs alone, whatever calls the mock recorded, and [os.environ]
    is afterwards what it was before the test. *)
Theorem threshold_test_verdict (w : TestWorld) :
  (SM75OrLater = false ->
   test_max_autotune_cutlass_threshold w = (inl (SkipTest "need sm_75"), w))
  /\
  (version_hip = true ->
   test_max_autotune_cutlass_threshold w = (inl (SkipTest "need sm_75"), w))
  /\
  (SM75OrLater = true -> is_fbcode = true ->
   test_max_autotune_cutlass_threshold w
   = (inl (SkipTest "fbcode requires different CUTLASS path setup"), w))
  /\
  (forall Y_compiled Y w1,
     SM75OrLater = true -> is_fbcode = false ->
     torch_compile_run (MatMul A B) false threshold_a threshold_b
       (threshold_compile_time w) = (inr Y_compiled, w1) ->
     eager_run (MatMul A B) threshold_a threshold_b = inr Y ->
     (test_max_autotune_cutlass_threshold w).1
     = (if assert_close Y_compiled Y None None
        then inr tt
        else inl (AssertionError "Tensor-likes are not close!"))
     /\ os_environ (test_max_autotune_cutlass_threshold w).2
        = os_environ w).
Proof.
  assert (Hskip : SM75OrLater = false ->
    test_max_autotune_cutlass_threshold w = (inl (SkipTest "need sm_75"), w)).
  { intros Hsm. unfold test_max_autotune_cutlass_threshold, skipIf.
    by rewrite Hsm. }
  split; [exact Hskip|]. split; [|split].
  - intros Hhip. apply Hskip. unfold SM75OrLater. rewrite Hhip.
    apply andb_false_r.
  - intros Hsm Hfb. unfold test_max_autotune_cutlass_threshold, skipIf.
    by rewrite Hsm, Hfb.
  - intros Y_compiled Y w1 Hsm Hfb Hcompile Heager.
    pose proof (SM75OrLater_not_hip Hsm) as Hhip.
    remember (test_max_autotune_cutlass_threshold w) as result eqn:E.
    unfold test_max_autotune_cutlass_threshold, skipIf in E.
    rewrite Hsm, Hfb, Hhip in E. cbn [negb] in E.
    unfold patch_dict_environ in E. revert E.
    unfold bind at 1. cbn [modify].
    unfold config_patch. unfold bind at 1. unfold mock_patch.
    unfold bind at 1.
    change (torch_compile_run (MatMul A B) false
              (half (cuda (randn [100; 10] 0)))
              (half (cuda (randn [10; 100] 1))) _)
      with (torch_compile_run (MatMul A B) false threshold_a threshold_b
              (threshold_compile_time w)).
    rewrite Hcompile.
    unfold bind at 1. unfold lift.
    change (eager_run (MatMul A B) (half (cuda (randn [100; 10] 0)))
              (half (cuda (randn [10; 100] 1))))
      with (eager_run (MatMul A B) threshold_a threshold_b).
    rewrite Heager. cbn.
    unfold testing_assert_close, py_assert.
    destruct (assert_close Y_compiled Y None None); intros ->;
      split; reflexivity.
Qed.

End ThresholdTest.

Lemma threshold_test_verdict_witness :
  (@CutlassTest.test_max_autotune_cutlass_threshold
     (Instances.recording_pipeline
        [CutlassTest.OChoiceCaller CutlassTest.CUDATemplateCaller])
     Instances.fresh_world).1 = inr tt.
Proof.
  destruct (@threshold_test_verdict
              (Instances.recording_pipeline
                 [CutlassTest.OChoiceCaller CutlassTest.CUDATemplateCaller])
              Instances.fresh_world) as (_ & _ & _ & Hverdict).
  destruct (Hverdict
             (mkTensor float16 [100; 100] "cuda" false true 0)
             (mkTensor float16 [100; 100] "cuda" false true 0)
             (@CutlassTest.torch_compile_run
                (Instances.recording_pipeline
                   [CutlassTest.OChoiceCaller CutlassTest.CUDATemplateCaller])
                (CutlassTest.MatMul CutlassTest.A CutlassTest.B) false
                CutlassWorlds.threshold_a CutlassWorlds.threshold_b
                (@CutlassWorlds.threshold_compile_time
                   (Instances.recording_pipeline
                      [CutlassTest.OChoiceCaller
                         CutlassTest.CUDATemplateCaller])
                   Instances.fresh_world)).2) as [Hrun _].
  - reflexivity.
  - reflexivity.
  - apply injective_projections; [vm_compute; reflexivity | reflexivity].
  - vm_compute. reflexivity.
  - rewrite Hrun. reflexivity.
Defined.

(** ** The backward of the eager implementation *)

Section DenseBackwardProperties.
Context {T : TorchOps} {L : TorchOpsLaws T} {TL : TransposeLaw T}
  {B : BackwardOps}.

(** The backward starts as the forward does: the scores it works on are
    the modified scores of the forward, for the forward graph. *)
Lemma backward_recomputes_scores
  (query key value out logsumexp grad_out : Tensor)
  (fw_graph joint_graph : Callable) (other_buffers : list PyVal)
  (tr : list Event) grads tr' :
  sdpa_dense_backward query key value out logsumexp grad_out fw_graph
    joint_graph other_buffers tr = (inr grads, tr') ->
  exists scores tr1,
    modified_scores query key fw_graph other_buffers tr = (inr scores, tr1).
Proof.
  unfold sdpa_dense_backward, modified_scores, vmap_score_mod,
    working_precision_of.
  intros H.
  bind_inv H as key_t tr1 H1. rewrite (bind_inr _ _ _ _ _ H1).
  bind_inv H as qk tr2 H2. rewrite (bind_inr _ _ _ _ _ H2).
  bind_inv H as size0 tr3 H3. rewrite (bind_inr _ _ _ _ _ H3).
  bind_inv H as size1 tr4 H4. rewrite (bind_inr _ _ _ _ _ H4).
  bind_inv H as size2 tr5 H5. rewrite (bind_inr _ _ _ _ _ H5).
  bind_inv H as size3 tr6 H6. rewrite (bind_inr _ _ _ _ _ H6).
  bind_inv H as modified tr7 H7. rewrite (bind_inr _ _ _ _ _ H7).
  bind_inv H as t tr8 H8. rewrite (bind_inr _ _ _ _ _ H8).
  eexists _, _. reflexivity.
Qed.

(** X5: when [sdpa_dense_backward] returns, the three gradients have the
    dtype of the query and are contiguous, and key, value and the output
    gradient had the dtype of the query: with another dtype one of the
    matrix products raises.  The scores it differentiates are those the
    forward computes from the same query, key, forward graph and
    buffers. *)
Theorem dense_backward_gradients
  (query key value out logsumexp grad_out : Tensor)
  (fw_graph joint_graph : Callable) (other_buffers : list PyVal)
  (tr tr' : list Event) (grad_query grad_key grad_value : Tensor) :
  sdpa_dense_backward query key value out logsumexp grad_out fw_graph
    joint_graph other_buffers tr
    = (inr (grad_query, grad_key, grad_value), tr') ->
  (dtype grad_query = dtype query /\ is_contiguous grad_query = true)
  /\ (dtype grad_key = dtype query /\ is_contiguous grad_key = true)
  /\ (dtype grad_value = dtype query /\ is_contiguous grad_value = true)
  /\ dtype key = dtype query
  /\ dtype value = dtype query
  /\ dtype grad_out = dtype query
  /\ exists scores tr1,
       modified_scores query key fw_graph other_buffers tr
         = (inr scores, tr1)
       /\ dtype scores = working_precision_of query.
Proof.
  intros H.
  destruct (backward_recomputes_scores _ _ _ _ _ _ _ _ _ _ _ _ H)
    as (scores & tr0 & Hscores).
  pose proof (modified_scores_dtype _ _ _ _ _ _ _ Hscores) as Hwp.
  unfold sdpa_dense_backward in H.
  bind_inv H as key_t tr1 H1. bind_inv H as qk tr2 H2.
  bind_inv H as size0 tr3 H3. bind_inv H as size1 tr4 H4.
  bind_inv H as size2 tr5 H5. bind_inv H as size3 tr6 H6.
  bind_inv H as modified tr7 H7. bind_inv H as t tr8 H8.
  bind_inv H as lse tr9 H9. bind_inv H as shifted tr10 H10.
  bind_inv H as softmax_t tr11 H11.
  apply lift_success in H11 as [H11 ->].
  bind_inv H as gv tr12 H12. apply lift_success in H12 as [H12 ->].
  bind_inv H as value_t tr13 H13. apply lift_success in H13 as [H13 ->].
  bind_inv H as gss tr14 H14. apply lift_success in H14 as [H14 ->].
  bind_inv H as out_grad tr15 H15. bind_inv H as sum_scores tr16 H16.
  bind_inv H as centered tr17 H17. bind_inv H as gsm tr18 H18.
  bind_inv H as joint_out tr19 H19. bind_inv H as first tr20 H20.
  bind_inv H as first' tr21 H21.
  bind_inv H as gq tr22 H22. apply lift_success in H22 as [H22 ->].
  bind_inv H as gst tr23 H23. apply lift_success in H23 as [H23 ->].
  bind_inv H as gk tr24 H24. apply lift_success in H24 as [H24 ->].
  injection H as <- <- <- <-.
  rewrite !dtype_contiguous, !contiguous_is_contiguous.
  apply dtype_transpose in H11, H13, H23.
  rewrite dtype_to_dtype in H11, H23.
  destruct (dtype_matmul _ _ _ H12) as [Hgo Hgv].
  destruct (dtype_matmul _ _ _ H14) as [Hvt _].
  destruct (dtype_matmul _ _ _ H22) as [Hk Hgq].
  destruct (dtype_matmul _ _ _ H24) as [_ Hgk].
  rewrite dtype_to_dtype in Hk, Hgq.
  assert (Hgo' : dtype grad_out = dtype query) by congruence.
  repeat split; try congruence.
  exists scores, tr0. done.
Qed.

End DenseBackwardProperties.

Global Instance MetaTorchGradLaws : TorchOpsLaws MoreInstances.MetaTorchGrad.
Proof.
  split; cbn.
  - reflexivity.
  - intros a b c. unfold Instances.meta_matmul.
    case_bool_decide as Hd; [|done].
    destruct (Instances.split_last2 (shape a)) as [[[ba m] k]|]; [|done].
    destruct (Instances.split_last2 (shape b)) as [[[bb k'] n]|]; [|done].
    destruct (_ && _); [|done]. intros [= <-]. done.
  - intros t dim r Hfl. unfold Instances.meta_logsumexp.
    destruct (Instances.normalize_dim _ _); [|done]. intros [= <-]. cbn.
    unfold Instances.reduction_dtype. by rewrite Hfl.
  - intros t dim r Hfl. unfold Instances.meta_softmax.
    destruct (Instances.normalize_dim _ _); [|done]. intros [= <-]. cbn.
    unfold Instances.reduction_dtype. by rewrite Hfl.
  - reflexivity.
  - reflexivity.
Qed.

Global Instance MetaTorchGradTranspose :
  TransposeLaw MoreInstances.MetaTorchGrad.
Proof.
  split; cbn. intros t dim0 dim1 r. unfold Instances.meta_transpose.
  destruct (Instances.normalize_dim _ dim0); [|done].
  destruct (Instances.normalize_dim _ dim1); [|done].
  destruct (shape t !! _); [|done]. destruct (shape t !! _); [|done].
  by intros [= <-].
Qed.

Lemma dense_backward_gradients_witness :
  let grads :=
    (mkTensor float16 [2; 3; 4; 8] "cpu" false true 1,
     mkTensor float16 [2; 3; 5; 8] "cpu" false true 1,
     mkTensor float16 [2; 3; 5; 16] "cpu" false true 1) in
  @sdpa_dense_backward MoreInstances.MetaTorchGrad MoreInstances.MetaBackward
    Instances.q16 Instances.k16 Instances.v16 MoreInstances.out16
    MoreInstances.lse32 MoreInstances.out16 Instances.identity_score_mod
    Instances.identity_score_mod [VTensor Instances.bias] []
  = (inr grads, [])
  /\ dtype grads.2 = dtype Instances.q16
  /\ dtype Instances.k16 = dtype Instances.q16.
Proof.
  intros grads.
  assert (Hrun :
    @sdpa_dense_backward MoreInstances.MetaTorchGrad MoreInstances.MetaBackward
      Instances.q16 Instances.k16 Instances.v16 MoreInstances.out16
      MoreInstances.lse32 MoreInstances.out16 Instances.identity_score_mod
      Instances.identity_score_mod [VTensor Instances.bias] []
    = (inr grads, [])) by (vm_compute; reflexivity).
  split; [exact Hrun|].
  destruct (@dense_backward_gradients
              MoreInstances.MetaTorchGrad MetaTorchGradLaws
              MetaTorchGradTranspose MoreInstances.MetaBackward
              _ _ _ _ _ _ _ _ _ _ _ _ _ _ Hrun)
    as (_ & _ & [Hgv _] & Hk & _).
  split; [exact Hgv | exact Hk].
Defined.

(** ** The implementations under [FakeTensorMode] *)

Section FakeTensorProperties.
Context {F : FakeTensorMode} {FL : FakeTensorLaws F}.

(** X6: under [FakeTensorMode] the forward returns exactly for a query of
    four dimensions and raises [ValueError] for any other.  Its output has
    the sizes and the dtype of the query and is contiguous; its logsumexp
    has the first three sizes of the query and the dtype float32, whatever
    the dtype of the query.  Key, value, score function and buffers are not
    looked at. *)
Theorem fake_forward_metadata (query key value : Tensor) (score_mod : PyVal)
  (other_buffers : list PyVal) (tr : list Event) :
  (length (shape query) <> 4%nat ->
   exists msg,
     templated_attention_fake_tensor_mode query key value score_mod
       other_buffers tr = (inl (ValueError msg), tr))
  /\
  (length (shape query) = 4%nat ->
   exists out logsumexp,
     templated_attention_fake_tensor_mode query key value score_mod
       other_buffers tr = (inr (out, logsumexp), tr)
     /\ shape out = shape query
     /\ dtype out = dtype query
     /\ is_contiguous out = true
     /\ shape logsumexp = take 3 (shape query)
     /\ dtype logsumexp = float32)
  /\
  (forall key' value' score_mod' other_buffers',
     templated_attention_fake_tensor_mode query key value score_mod
       other_buffers tr
     = templated_attention_fake_tensor_mode query key' value' score_mod'
         other_buffers' tr).
Proof.
  unfold templated_attention_fake_tensor_mode. split; [|split].
  - intros Hlen.
    destruct (shape query) as [|s0 [|s1 [|s2 [|s3 [|s4 rest]]]]];
      try (eexists; reflexivity).
    by cbn in Hlen.
  - intros Hlen.
    destruct (shape query) as [|s0 [|s1 [|s2 [|s3 [|s4 rest]]]]] eqn:E;
      try discriminate Hlen.
    eexists _, _. split; [reflexivity|].
    rewrite shape_empty_like, dtype_empty_like, empty_like_is_contiguous,
      shape_new_empty, dtype_new_empty, E. done.
  - reflexivity.
Qed.

End FakeTensorProperties.

Section FakeAgainstEager.
Context {T : TorchOps} {L : TorchOpsLaws T} {TL : TransposeLaw T}
  {B : BackwardOps} {F : FakeTensorMode} {FL : FakeTensorLaws F}.

(** X7: for a query in double precision the fake implementation and the
    eager one disagree on the logsumexp: whenever both return, the eager
    logsumexp is float64 and the fake one float32.  For any other query
    dtype both are float32, and the two outputs always agree on the
    dtype. *)
Theorem fake_logsumexp_dtype_differs (query key value : Tensor)
  (score_mod : Callable) (other_buffers : list PyVal) (tr tr1 tr2 : list Event)
  (out lse fake_out fake_lse : Tensor) :
  math_attention query key value score_mod other_buffers tr
    = (inr (out, lse), tr1) ->
  templated_attention_fake_tensor_mode query key value (VCallable score_mod)
    other_buffers tr = (inr (fake_out, fake_lse), tr2) ->
  dtype fake_out = dtype out
  /\ (dtype query = float64 ->
      dtype lse = float64 /\ dtype fake_lse = float32
      /\ dtype fake_lse <> dtype lse)
  /\ (dtype query <> float64 -> dtype fake_lse = dtype lse).
Proof.
  intros Heager Hfake.
  assert (Hlse : dtype lse = working_precision_of query
                 /\ dtype out = dtype query).
  { unfold math_attention in Heager.
    bind_inv Heager as scores tr3 Hscores.
    pose proof (modified_scores_dtype _ _ _ _ _ _ _ Hscores) as Hdt.
    pose proof (working_precision_is_floating query) as Hfl.
    bind_inv Heager as lse0 tr4 Hl. apply lift_success in Hl as [Hl ->].
    bind_inv Heager as probs tr5 Hs. apply lift_success in Hs as [Hs ->].
    bind_inv Heager as out0 tr6 Ho. apply lift_success in Ho as [Ho ->].
    injection Heager as -> -> ->. split.
    - rewrite <- Hdt. eapply dtype_logsumexp; [|done]. by rewrite Hdt.
    - destruct (dtype_matmul _ _ _ Ho) as [_ Hout].
      by rewrite dtype_to_dtype in Hout. }
  destruct Hlse as [Hlse Hout].
  assert (Hf : dtype fake_lse = float32 /\ dtype fake_out = dtype query).
  { unfold templated_attention_fake_tensor_mode in Hfake.
    destruct (shape query) as [|s0 [|s1 [|s2 [|s3 [|s4 rest]]]]];
      try discriminate Hfake.
    injection Hfake as <- <- _.
    by rewrite dtype_new_empty, dtype_empty_like. }
  destruct Hf as [Hflse Hfout].
  split; [congruence|]. unfold working_precision_of in Hlse. split.
  - intros Hq. rewrite decide_True in Hlse by done.
    rewrite Hlse, Hflse. done.
  - intros Hq. rewrite decide_False in Hlse by done. congruence.
Qed.

(** X8: under [FakeTensorMode] the backward always returns, without
    looking at output, logsumexp, output gradient, graphs or buffers: its
    gradients have the sizes of query, key and value and are contiguous.
    On the dtypes it agrees with the dense backward: whenever that returns
    for the same arguments, its three gradients have the dtypes of the fake
    ones and are contiguous as well. *)
Theorem fake_backward_agrees_on_dtypes
  (query key value out logsumexp grad_out : Tensor)
  (fw_graph joint_graph : Callable) (other_buffers : list PyVal)
  (tr : list Event) :
  exists fake_query fake_key fake_value,
    templated_attention_backward_fake_tensor_mode query key value out
      logsumexp grad_out (VCallable fw_graph) (VCallable joint_graph)
      other_buffers tr
    = (inr (fake_query, fake_key, fake_value), tr)
    /\ (shape fake_query = shape query /\ is_contiguous fake_query = true)
    /\ (shape fake_key = shape key /\ is_contiguous fake_key = true)
    /\ (shape fake_value = shape value /\ is_contiguous fake_value = true)
    /\ forall grad_query grad_key grad_value tr1,
         sdpa_dense_backward query key value out logsumexp grad_out fw_graph
           joint_graph other_buffers tr
         = (inr (grad_query, grad_key, grad_value), tr1) ->
         (dtype grad_query = dtype fake_query
          /\ is_contiguous grad_query = true)
         /\ (dtype grad_key = dtype fake_key
             /\ is_contiguous grad_key = true)
         /\ (dtype grad_value = dtype fake_value
             /\ is_contiguous grad_value = true).
Proof.
  eexists _, _, _. split; [reflexivity|].
  rewrite !shape_empty_like, !dtype_empty_like, !empty_like_is_contiguous.
  do 3 (split; [done|]).
  intros grad_query grad_key grad_value tr1 Hdense.
  unfold sdpa_dense_backward in Hdense.
  bind_inv Hdense as key_t tr3 H1. bind_inv Hdense as qk tr4 H2.
  bind_inv Hdense as size0 tr5 H3. bind_inv Hdense as size1 tr6 H4.
  bind_inv Hdense as size2 tr7 H5. bind_inv Hdense as size3 tr8 H6.
  bind_inv Hdense as modified tr9 H7. bind_inv Hdense as t tr10 H8.
  bind_inv Hdense as lse tr11 H9. bind_inv Hdense as shifted tr12 H10.
  bind_inv Hdense as softmax_t tr13 H11.
  apply lift_success in H11 as [H11 ->].
  bind_inv Hdense as gv tr14 H12. apply lift_success in H12 as [H12 ->].
  bind_inv Hdense as value_t tr15 H13. apply lift_success in H13 as [H13 ->].
  bind_inv Hdense as gss tr16 H14. apply lift_success in H14 as [H14 ->].
  bind_inv Hdense as out_grad tr17 H15.
  bind_inv Hdense as sum_scores tr18 H16.
  bind_inv Hdense as centered tr19 H17. bind_inv Hdense as gsm tr20 H18.
  bind_inv Hdense as joint_out tr21 H19. bind_inv Hdense as first tr22 H20.
  bind_inv Hdense as first' tr23 H21.
  bind_inv Hdense as gq tr24 H22. apply lift_success in H22 as [H22 ->].
  bind_inv Hdense as gst tr25 H23. apply lift_success in H23 as [H23 ->].
  bind_inv Hdense as gk tr26 H24. apply lift_success in H24 as [H24 ->].
  injection Hdense as <- <- <- <-.
  rewrite !dtype_contiguous, !contiguous_is_contiguous.
  apply dtype_transpose in H11, H13, H23.
  rewrite dtype_to_dtype in H11, H23.
  destruct (dtype_matmul _ _ _ H12) as [Hgo Hgv].
  destruct (dtype_matmul _ _ _ H14) as [Hvt _].
  destruct (dtype_matmul _ _ _ H22) as [Hk Hgq].
  destruct (dtype_matmul _ _ _ H24) as [_ Hgk].
  rewrite dtype_to_dtype in Hk, Hgq.
  repeat split; congruence.
Qed.

End FakeAgainstEager.

Global Instance MetaFakeLaws : FakeTensorLaws MoreInstances.MetaFake.
Proof. split; reflexivity. Qed.

Lemma fake_forward_metadata_witness :
  (exists msg,
     @templated_attention_fake_tensor_mode MoreInstances.MetaFake
       Instances.bias Instances.k16 Instances.v16
       (VCallable Instances.identity_score_mod) [] []
     = (inl (ValueError msg), []))
  /\
  (exists out logsumexp,
     @templated_attention_fake_tensor_mode MoreInstances.MetaFake
       MoreInstances.q64 MoreInstances.k64 MoreInstances.v64
       (VCallable Instances.identity_score_mod) [] []
     = (inr (out, logsumexp), [])
     /\ shape out = [2; 3; 4; 8]
     /\ dtype out = float64
     /\ is_contiguous out = true
     /\ shape logsumexp = [2; 3; 4]
     /\ dtype logsumexp = float32).
Proof.
  split.
  - destruct (@fake_forward_metadata MoreInstances.MetaFake MetaFakeLaws
                Instances.bias Instances.k16 Instances.v16
                (VCallable Instances.identity_score_mod) [] [])
      as (Hraise & _).
    apply Hraise. cbn. lia.
  - destruct (@fake_forward_metadata MoreInstances.MetaFake MetaFakeLaws
                MoreInstances.q64 MoreInstances.k64 MoreInstances.v64
                (VCallable Instances.identity_score_mod) [] [])
      as (_ & Hreturn & _).
    apply Hreturn. reflexivity.
Defined.

Lemma fake_logsumexp_dtype_differs_witness :
  let out := mkTensor float64 [2; 3; 4; 16] "cpu" false true 1 in
  let lse := mkTensor float64 [2; 3; 4] "cpu" false true 1 in
  let fake_out := mkTensor float64 [2; 3; 4; 8] "cpu" false true 0 in
  let fake_lse := mkTensor float32 [2; 3; 4] "cpu" false true 0 in
  @math_attention Instances.MetaTorch MoreInstances.q64 MoreInstances.k64
    MoreInstances.v64 Instances.identity_score_mod [VTensor Instances.bias] []
  = (inr (out, lse), [])
  /\ @templated_attention_fake_tensor_mode MoreInstances.MetaFake
       MoreInstances.q64 MoreInstances.k64 MoreInstances.v64
       (VCallable Instances.identity_score_mod) [VTensor Instances.bias] []
     = (inr (fake_out, fake_lse), [])
  /\ dtype lse = float64 /\ dtype fake_lse = float32
  /\ dtype fake_lse <> dtype lse.
Proof.
  intros out lse fake_out fake_lse.
  assert (Heager :
    @math_attention Instances.MetaTorch MoreInstances.q64 MoreInstances.k64
      MoreInstances.v64 Instances.identity_score_mod [VTensor Instances.bias]
      [] = (inr (out, lse), [])) by (vm_compute; reflexivity).
  assert (Hfake :
    @templated_attention_fake_tensor_mode MoreInstances.MetaFake
      MoreInstances.q64 MoreInstances.k64 MoreInstances.v64
      (VCallable Instances.identity_score_mod) [VTensor Instances.bias] []
    = (inr (fake_out, fake_lse), [])) by (vm_compute; reflexivity).
  split; [exact Heager|]. split; [exact Hfake|].
  destruct (@fake_logsumexp_dtype_differs
              Instances.MetaTorch MetaTorchLaws MoreInstances.MetaFake
              MetaFakeLaws _ _ _ _ _ _ _ _ _ _ _ _ Heager Hfake)
    as (_ & Hdouble & _).
  apply Hdouble. reflexivity.
Defined.

Lemma fake_backward_agrees_on_dtypes_witness :
  let grads :=
    (mkTensor float16 [2; 3; 4; 8] "cpu" false true 1,
     mkTensor float16 [2; 3; 5; 8] "cpu" false true 1,
     mkTensor float16 [2; 3; 5; 16] "cpu" false true 1) in
  exists fakes,
    @templated_attention_backward_fake_tensor_mode MoreInstances.MetaFake
      Instances.q16 Instances.k16 Instances.v16 MoreInstances.out16
      MoreInstances.lse32 MoreInstances.out16
      (VCallable Instances.identity_score_mod)
      (VCallable Instances.identity_score_mod) [VTensor Instances.bias] []
    = (inr fakes, [])
    /\ dtype grads.1.1 = dtype fakes.1.1
    /\ dtype grads.1.2 = dtype fakes.1.2
    /\ dtype grads.2 = dtype fakes.2.
Proof.
  intros grads.
  destruct (@fake_backward_agrees_on_dtypes
              MoreInstances.MetaTorchGrad MetaTorchGradLaws
              MetaTorchGradTranspose MoreInstances.MetaBackward
              MoreInstances.MetaFake MetaFakeLaws
              Instances.q16 Instances.k16 Instances.v16 MoreInstances.out16
              MoreInstances.lse32 MoreInstances.out16
              Instances.identity_score_mod Instances.identity_score_mod
              [VTensor Instances.bias] [])
    as (fq & fk & fv & Hfake & _ & _ & _ & Hagree).
  exists (fq, fk, fv). split; [exact Hfake|].
  destruct (Hagree grads.1.1 grads.1.2 grads.2 [])
    as ([Hq _] & [Hk _] & [Hv _]); [vm_compute; reflexivity|].
  cbn. done.
Defined.

(** ** The autograd function, forward and backward together *)

Section AutogradComposition.
Context {D : Dispatcher} {T : TorchOps}.

Lemma any_requires_grad_app_tensors (pre rest : list PyVal) :
  Forall (fun buf => exists t, buf = VTensor t /\ requires_grad t = false)
    pre ->
  any_requires_grad (pre ++ rest) = any_requires_grad rest.
Proof.
  induction 1 as [|buf pre (t & -> & Hgrad) _ IH]; [done|].
  cbn. by rewrite Hgrad.
Qed.

Lemma forallb_tensors (bufs : list PyVal) :
  Forall (fun buf => exists t, buf = VTensor t /\ requires_grad t = false)
    bufs ->
  forallb isinstance_Tensor bufs = true.
Proof.
  induction 1 as [|buf bufs (t & -> & _) _ IH]; [done|]. cbn. exact IH.
Qed.

(** X9: what the autograd forward does with the buffers is decided by the
    first buffer that is not a tensor without [requires_grad].  If that
    buffer is not a tensor, reading its [requires_grad] raises
    [AttributeError]; if it is a tensor that requires grad, the assertion
    fails, whatever comes after it, because [any] stops there.  Both
    happen before anything is dispatched, and the operator's own
    [RuntimeError] for buffers that are not tensors is not reached.  If
    there is no such buffer, the operator's check on the buffers passes and
    the forward is the dispatch inside the guard followed by the unpacking
    of two outputs. *)
Theorem autograd_forward_by_buffers (ctx : FunctionCtx)
  (query key value fw_graph joint_graph : PyVal) (pre : list PyVal)
  (tr : list Event) :
  Forall (fun buf => exists t, buf = VTensor t /\ requires_grad t = false)
    pre ->
  (forall bad post,
     isinstance_Tensor bad = false ->
     TemplatedAttentionAutogradOp.forward ctx query key value fw_graph
       joint_graph (pre ++ bad :: post) tr
     = (inl (AttributeError "requires_grad"), tr))
  /\
  (forall t post,
     requires_grad t = true ->
     TemplatedAttentionAutogradOp.forward ctx query key value fw_graph
       joint_graph (pre ++ VTensor t :: post) tr
     = (inl (AssertionError
               "Captured buffers that require grad are not yet supported."),
        tr))
  /\
  TemplatedAttentionAutogradOp.forward ctx query key value fw_graph
    joint_graph pre tr
  = (do '(out, logsumexp) <- with_guard AutoDispatchBelowAutograd (
       do res <- HigherOrderOperator_call "templated_attention"
                   (query :: key :: value :: fw_graph :: pre);
       unpack2 res);
     ret ({| _fw_graph := fw_graph; _joint_graph := joint_graph;
             saved_tensors :=
               query :: key :: value :: out :: logsumexp :: pre |},
          VTuple [out; logsumexp])) tr.
Proof.
  intros Hpre. split; [|split].
  - intros bad post Hbad. unfold TemplatedAttentionAutogradOp.forward.
    unfold bind at 1. unfold lift.
    rewrite any_requires_grad_app_tensors by done.
    destruct bad; try discriminate Hbad; reflexivity.
  - intros t post Hgrad. unfold TemplatedAttentionAutogradOp.forward.
    unfold bind at 1. unfold lift.
    rewrite any_requires_grad_app_tensors by done.
    cbn. rewrite Hgrad. reflexivity.
  - unfold TemplatedAttentionAutogradOp.forward.
    unfold bind at 1. unfold lift.
    rewrite <- (app_nil_r pre) at 1.
    rewrite any_requires_grad_app_tensors by done. cbn [any_requires_grad].
    unfold bind at 1. cbn [py_assert negb ret].
    unfold templated_attention, TemplatedAttentionHOP.__call__.
    rewrite forallb_tensors by done. reflexivity.
Qed.

(** X10: forward and backward fit together.  After a forward that
    returned, the backward run on the context it left finds its five saved
    tensors, so its unpacking cannot fail, and passes the operator's check
    on the buffers: it is the dispatch of [templated_attention_backward]
    on query, key, value, the two outputs of the forward, the output
    gradient, the two graphs given to the forward and the buffers,
    followed by the unpacking of three gradients.  When it returns, it
    returns one entry for each input of the forward, and the entries for
    the two graphs and for the buffers are [None]. *)
Theorem autograd_backward_after_forward (ctx ctx' : FunctionCtx)
  (query key value fw_graph joint_graph : PyVal) (other_buffers : list PyVal)
  (res : PyVal) (tr tr' : list Event) :
  TemplatedAttentionAutogradOp.forward ctx query key value fw_graph
    joint_graph other_buffers tr = (inr (ctx', res), tr') ->
  exists out logsumexp,
    res = VTuple [out; logsumexp]
    /\ forall grad_out logsumexp_grad tr2,
         TemplatedAttentionAutogradOp.backward ctx' grad_out logsumexp_grad
           tr2
         = (do r <- HigherOrderOperator_call "templated_attention_backward"
                      (query :: key :: value :: out :: logsumexp :: grad_out
                         :: fw_graph :: joint_graph :: other_buffers);
            do '(grad_query, grad_key, grad_value) <- unpack3 r;
            ret (VTuple ([grad_query; grad_key; grad_value]
                           ++ replicate (2 + length other_buffers)%nat
                                VNone))) tr2
         /\ forall grads tr3,
              TemplatedAttentionAutogradOp.backward ctx' grad_out
                logsumexp_grad tr2 = (inr grads, tr3) ->
              exists items,
                grads = VTuple items
                /\ length items
                   = length (query :: key :: value :: fw_graph
                               :: joint_graph :: other_buffers)
                /\ drop 3 items
                   = replicate (2 + length other_buffers)%nat VNone.
Proof.
  intros H. unfold TemplatedAttentionAutogradOp.forward in H.
  bind_inv H as any_grad tr1 Hany. apply lift_success in Hany as [Hany ->].
  bind_inv H as u tr2 Hnot. apply py_assert_success in Hnot as [Hnot ->].
  apply negb_true_iff in Hnot. subst any_grad.
  bind_inv H as outs tr3 Hcall. destruct outs as [out logsumexp].
  injection H as <- <- <-.
  exists out, logsumexp. split; [reflexivity|].
  intros grad_out logsumexp_grad tr2.
  assert (Hback :
    TemplatedAttentionAutogradOp.backward
      {| _fw_graph := fw_graph; _joint_graph := joint_graph;
         saved_tensors :=
           query :: key :: value :: out :: logsumexp :: other_buffers |}
      grad_out logsumexp_grad tr2
    = (do r <- HigherOrderOperator_call "templated_attention_backward"
                 (query :: key :: value :: out :: logsumexp :: grad_out
                    :: fw_graph :: joint_graph :: other_buffers);
       do '(grad_query, grad_key, grad_value) <- unpack3 r;
       ret (VTuple ([grad_query; grad_key; grad_value]
                      ++ replicate (2 + length other_buffers)%nat VNone)))
        tr2).
  { unfold TemplatedAttentionAutogradOp.backward. cbn [saved_tensors
      _fw_graph _joint_graph].
    unfold templated_attention_backward, TemplatedAttentionBackwardHOP.__call__.
    rewrite (forallb_tensors other_buffers)
      by (by apply any_requires_grad_false).
    reflexivity. }
  split; [exact Hback|].
  intros grads tr4 Hret. rewrite Hback in Hret.
  bind_inv Hret as r tr5 Hr. bind_inv Hret as gs tr6 Hgs.
  destruct gs as [[grad_query grad_key] grad_value].
  injection Hret as <- <-.
  eexists. split; [reflexivity|]. split.
  - cbn. by rewrite length_replicate.
  - reflexivity.
Qed.

End AutogradComposition.

Lemma autograd_forward_by_buffers_witness :
  @TemplatedAttentionAutogradOp.forward
    Instances.echo_dispatcher Instances.MetaTorch Instances.saved_ctx
    (VTensor Instances.q16) (VTensor Instances.k16) (VTensor Instances.v16)
    (VCallable Instances.identity_score_mod)
    (VCallable Instances.identity_score_mod)
    ([VTensor Instances.bias] ++ VNone :: [VTensor Instances.grad_buffer]) []
  = (inl (AttributeError "requires_grad"), [])
  /\
  @TemplatedAttentionAutogradOp.forward
    Instances.echo_dispatcher Instances.MetaTorch Instances.saved_ctx
    (VTensor Instances.q16) (VTensor Instances.k16) (VTensor Instances.v16)
    (VCallable Instances.identity_score_mod)
    (VCallable Instances.identity_score_mod)
    ([VTensor Instances.bias] ++ VTensor Instances.grad_buffer :: [VNone]) []
  = (inl (AssertionError
            "Captured buffers that require grad are not yet supported."),
     []).
Proof.
  assert (Hpre :
    Forall (fun buf => exists t, buf = VTensor t /\ requires_grad t = false)
      [VTensor Instances.bias]).
  { constructor; [|constructor]. by exists Instances.bias. }
  destruct (@autograd_forward_by_buffers
              Instances.echo_dispatcher Instances.MetaTorch
              Instances.saved_ctx
              (VTensor Instances.q16) (VTensor Instances.k16)
              (VTensor Instances.v16)
              (VCallable Instances.identity_score_mod)
              (VCallable Instances.identity_score_mod)
              [VTensor Instances.bias] [] Hpre)
    as (Hattr & Hassert & _).
  split.
  - apply Hattr. reflexivity.
  - apply Hassert. reflexivity.
Defined.

Lemma autograd_backward_after_forward_witness :
  let ctx' :=
    {| _fw_graph := VCallable Instances.identity_score_mod;
       _joint_graph := VCallable Instances.writing_score_mod;
       saved_tensors :=
         [VTensor Instances.q16; VTensor Instances.k16; VTensor Instances.v16;
          VTensor Instances.q16; VTensor Instances.k16;
          VTensor Instances.bias] |} in
  @TemplatedAttentionAutogradOp.forward
    Instances.echo_dispatcher Instances.MetaTorch Instances.saved_ctx
    (VTensor Instances.q16) (VTensor Instances.k16) (VTensor Instances.v16)
    (VCallable Instances.identity_score_mod)
    (VCallable Instances.writing_score_mod) [VTensor Instances.bias] []
  = (inr (ctx', VTuple [VTensor Instances.q16; VTensor Instances.k16]),
     [EvEnter AutoDispatchBelowAutograd;
      EvDispatch "templated_attention"
        [VTensor Instances.q16; VTensor Instances.k16; VTensor Instances.v16;
         VCallable Instances.identity_score_mod; VTensor Instances.bias];
      EvExit AutoDispatchBelowAutograd])
  /\
  @TemplatedAttentionAutogradOp.backward
    Instances.echo_dispatcher Instances.MetaTorch ctx'
    (VTensor MoreInstances.out16) VNone []
  = (inr (VTuple [VTensor Instances.q16; VTensor Instances.k16;
                  VTensor Instances.v16; VNone; VNone; VNone]),
     [EvDispatch "templated_attention_backward"
        [VTensor Instances.q16; VTensor Instances.k16; VTensor Instances.v16;
         VTensor Instances.q16; VTensor Instances.k16;
         VTensor MoreInstances.out16;
         VCallable Instances.identity_score_mod;
         VCallable Instances.writing_score_mod; VTensor Instances.bias]]).
Proof.
  intros ctx'.
  assert (Hforward :
    @TemplatedAttentionAutogradOp.forward
      Instances.echo_dispatcher Instances.MetaTorch Instances.saved_ctx
      (VTensor Instances.q16) (VTensor Instances.k16) (VTensor Instances.v16)
      (VCallable Instances.identity_score_mod)
      (VCallable Instances.writing_score_mod) [VTensor Instances.bias] []
    = (inr (ctx', VTuple [VTensor Instances.q16; VTensor Instances.k16]),
       [EvEnter AutoDispatchBelowAutograd;
        EvDispatch "templated_attention"
          [VTensor Instances.q16; VTensor Instances.k16;
           VTensor Instances.v16;
           VCallable Instances.identity_score_mod; VTensor Instances.bias];
        EvExit AutoDispatchBelowAutograd])) by reflexivity.
  split; [exact Hforward|].
  destruct (@autograd_backward_after_forward
              Instances.echo_dispatcher Instances.MetaTorch
              _ _ _ _ _ _ _ _ _ _ _ Hforward)
    as (out & logsumexp & Hres & Hback).
  injection Hres as <- <-.
  destruct (Hback (VTensor MoreInstances.out16) VNone []) as [Heq _].
  rewrite Heq. reflexivity.
Defined.
